(** * Greeting helper and scaffolder client: a shallow embedding

    The development follows the two units of the source file:

    - [getTimeBasedGreeting] (the date/greeting helper), a pure function of
      the process-start seed, the three locale tables and the local hour;
    - [ScaffolderClient] with its three methods [scaffold], [getTask] and
      [streamLogs], which talk to the outside world through the discovery
      and identity interfaces, [fetch], [EventSource] and a zen-observable
      subscription.

    JavaScript strings are sequences of UTF-16 code units ([list N]); JSON
    values are an inductive type with objects as association lists in
    own-property order; asynchronous calls are run in a small monad that
    threads the log of outbound requests and propagates rejections.  The
    log stream is a state machine over the turns of the event loop: the
    discovery promise settles, the user agent dispatches an event, the
    consumer unsubscribes.  The consumer's observer only records what it is
    called with.

    What the client does not define is taken from outside: the locale
    tables and the seed are parameters of the greeting, [JSON.parse],
    [JSON.stringify] and [encodeURIComponent] are the fields of the class
    [JsRuntime], the network and the two collaborators are parameters of the
    client.  The general statements hold for every choice of them; the
    module [Ecma] and the sample data instantiate them for concrete runs. *)

From Stdlib Require Import ZArith String Ascii DecimalString.
From stdpp Require Import base option list gmap.

Set Warnings "-register-all".
Local Open Scope Z_scope.

(** ** JavaScript strings *)

Abbreviation jsstring := (list N).

(** An ASCII literal of the source, as code units. *)
Definition lit (s : string) : jsstring :=
  map N_of_ascii (list_ascii_of_string s).
Arguments lit : simpl never.

(** [String(n)] and template interpolation of an integral number. *)
Definition String_of_Z (n : Z) : jsstring :=
  lit (NilZero.string_of_int (Z.to_int n)).
Arguments String_of_Z : simpl never.

(** ECMAScript [WhiteSpace] and [LineTerminator] code units, the ones
    [String.prototype.trim] strips. *)
Definition is_whitespace (c : N) : bool :=
  bool_decide (c ∈ [9; 10; 11; 12; 13; 32; 160; 5760; 8232; 8233; 8239; 8287;
                    12288; 65279]%N)
  || ((8192 <=? c)%N && (c <=? 8202)%N).

Fixpoint trimStart (s : jsstring) : jsstring :=
  match s with
  | c :: s' => if is_whitespace c then trimStart s' else s
  | [] => []
  end.

Definition trimEnd (s : jsstring) : jsstring := rev (trimStart (rev s)).

Definition trim (s : jsstring) : jsstring := trimEnd (trimStart s).
Arguments trim : simpl never.

(** [needle] occurs in [hay] as a contiguous run of code units. *)
Definition contains (hay needle : jsstring) : Prop :=
  ∃ before after, hay = before ++ needle ++ after.

(** ** JavaScript values *)

(** The values that cross the client: [undefined] and the JSON values.  A
    number keeps the text of its literal: no operation of the client reads
    the numeric value of a payload.  An object lists its own properties in
    property order, each key once. *)
Inductive JsValue : Type :=
| JUndefined
| JNull
| JBool (b : bool)
| JNum (literal : jsstring)
| JStr (s : jsstring)
| JArr (items : list JsValue)
| JObj (props : list (jsstring * JsValue)).

Abbreviation JsObject := (list (jsstring * JsValue)).

(** [Object.keys(o)]. *)
Definition Object_keys (o : JsObject) : list jsstring := o.*1.

(** [o[k]] on own properties; [None] stands for [undefined]. *)
Fixpoint obj_lookup (o : JsObject) (k : jsstring) : option JsValue :=
  match o with
  | [] => None
  | (k', v) :: o' => if decide (k' = k) then Some v else obj_lookup o' k
  end.

Definition obj_get (o : JsObject) (k : jsstring) : JsValue :=
  default JUndefined (obj_lookup o k).

(** Assignment [o[k] = v]: an existing property keeps its place. *)
Fixpoint obj_set (o : JsObject) (k : jsstring) (v : JsValue) : JsObject :=
  match o with
  | [] => [(k, v)]
  | (k', v') :: o' =>
      if decide (k' = k) then (k', v) :: o' else (k', v') :: obj_set o' k v
  end.

(** Truthiness of a value that is a string or [undefined]. *)
Definition truthy (s : option jsstring) : bool :=
  match s with
  | Some (_ :: _) => true
  | _ => false
  end.

(** ** The greeting helper *)

Record Greeting := { language : JsValue; greeting : JsValue }.

(** [a % b] on integral numbers: [None] is [NaN], the sign follows [a]. *)
Definition js_rem (a b : Z) : option Z :=
  if decide (b = 0) then None else Some (Z.rem a b).

(** [array[i]] for a number [i]; [None] is [undefined]. *)
Definition array_get {A} (array : list A) (i : option Z) : option A :=
  match i with
  | Some i => if decide (0 <= i) then array !! Z.to_nat i else None
  | None => None
  end.

(** A property key made from a string or [undefined]. *)
Definition to_property_key (k : option jsstring) : jsstring :=
  default (lit "undefined") k.

Section Greeting.
(** The seed drawn once at start-up by
    [Math.floor(Math.random() * 1000000)], and the three locale tables
    imported from the JSON files next to the module. *)
Variable greetingRandomSeed : Z.
Variables goodMorning goodAfternoon goodEvening : JsObject.

Definition random (array : list jsstring) : option jsstring :=
  array_get array (js_rem greetingRandomSeed (Z.of_nat (length array))).

Definition timeOfDay (hour : Z) : JsObject :=
  if decide (hour < 12) then goodMorning
  else if decide (hour < 17) then goodAfternoon
  else goodEvening.

(** [currentHour] is [new Date(Date.now()).getHours()]. *)
Definition getTimeBasedGreeting (currentHour : Z) : Greeting :=
  if decide (currentHour >= 23) then
    {| language := JStr (lit "Seriously");
       greeting := JStr (lit "Get some rest") |}
  else
    let greetings := timeOfDay currentHour in
    let greetingsKey := random (Object_keys greetings) in
    {| language := from_option JStr JUndefined greetingsKey;
       greeting := obj_get greetings (to_property_key greetingsKey) |}.
End Greeting.

(** ** The engine's built-ins used by the client *)

(** What a [throw] or a rejected promise carries. *)
Inductive Thrown : Type :=
| ErrorObj (message : jsstring)  (* [new Error(message)] *)
| SyntaxError                    (* raised by [JSON.parse] *)
| TypeError                      (* raised by the engine *)
| URIError                       (* raised by [encodeURIComponent] *)
| Rejection (reason : JsValue)   (* the reason a collaborator rejected with *)
| ErrorEvent.                    (* the event object of an [error] event *)

(** [JSON.parse], [JSON.stringify] and [encodeURIComponent] belong to the
    engine, not to the client.  The client is written against this
    interface; [None] is a thrown [SyntaxError], the value [undefined], and
    a thrown [URIError] respectively. *)
Class JsRuntime := {
  JSON_parse : jsstring → option JsValue;
  JSON_stringify : JsValue → option jsstring;
  encodeURIComponent : jsstring → option jsstring;
}.

(** A reference implementation of the three built-ins, used to run the
    client on concrete inputs. *)
Module Ecma.
Local Open Scope N_scope.

Definition is_json_ws (c : N) : bool := bool_decide (c ∈ [32; 9; 10; 13]).

Fixpoint skip_ws (s : jsstring) : jsstring :=
  match s with
  | c :: s' => if is_json_ws c then skip_ws s' else s
  | [] => []
  end.

Definition is_digit (c : N) : bool := (48 <=? c) && (c <=? 57).

Definition hex_value (c : N) : option N :=
  if is_digit c then Some (c - 48)
  else if (97 <=? c) && (c <=? 102) then Some (c - 87)
  else if (65 <=? c) && (c <=? 70) then Some (c - 55)
  else None.

Definition hex4 (a b c d : N) : option N :=
  a ← hex_value a; b ← hex_value b; c ← hex_value c; d ← hex_value d;
  Some (((a * 16 + b) * 16 + c) * 16 + d).

(** The characters of a string literal after its opening quote; [acc]
    holds the decoded code units so far, last first. *)
Fixpoint parse_string (s acc : jsstring) : option (jsstring * jsstring) :=
  match s with
  | [] => None
  | 34 :: r => Some (rev acc, r)
  | 92 :: e :: r =>
      match e with
      | 34 | 92 | 47 => parse_string r (e :: acc)
      | 98 => parse_string r (8 :: acc)
      | 102 => parse_string r (12 :: acc)
      | 110 => parse_string r (10 :: acc)
      | 114 => parse_string r (13 :: acc)
      | 116 => parse_string r (9 :: acc)
      | 117 =>
          match r with
          | h1 :: h2 :: h3 :: h4 :: r' =>
              match hex4 h1 h2 h3 h4 with
              | Some u => parse_string r' (u :: acc)
              | None => None
              end
          | _ => None
          end
      | _ => None
      end
  | c :: r => if c <? 32 then None else parse_string r (c :: acc)
  end.

Fixpoint span_digits (s : jsstring) : jsstring * jsstring :=
  match s with
  | c :: r =>
      if is_digit c then let '(d, r') := span_digits r in (c :: d, r')
      else ([], s)
  | [] => ([], [])
  end.

(** A number literal: its text and the rest of the input. *)
Definition parse_number (s : jsstring) : option (jsstring * jsstring) :=
  let '(sign, s1) :=
    match s with 45 :: r => ([45], r) | _ => ([], s) end in
  let '(int, s2) := span_digits s1 in
  match int with
  | [] | 48 :: _ :: _ => None
  | _ =>
      '(frac, s3) ←
        match s2 with
        | 46 :: r =>
            let '(d, r') := span_digits r in
            if decide (d = []) then None else Some (46 :: d, r')
        | _ => Some ([], s2)
        end;
      '(exp, s4) ←
        match s3 with
        | e :: r =>
            if bool_decide (e ∈ [101; 69]) then
              let '(sg, r1) :=
                match r with
                | c :: r' =>
                    if bool_decide (c ∈ [43; 45]) then ([c], r') else ([], r)
                | [] => ([], r)
                end in
              let '(d, r2) := span_digits r1 in
              if decide (d = []) then None else Some (e :: sg ++ d, r2)
            else Some ([], s3)
        | [] => Some ([], s3)
        end;
      Some (sign ++ int ++ frac ++ exp, s4)
  end.

Fixpoint parse_value (fuel : nat) (s : jsstring)
  : option (JsValue * jsstring) :=
  match fuel with
  | O => None
  | S fuel =>
      match skip_ws s with
      | 123 :: r =>
          match skip_ws r with
          | 125 :: r' => Some (JObj [], r')
          | r' => parse_members fuel r' []
          end
      | 91 :: r =>
          match skip_ws r with
          | 93 :: r' => Some (JArr [], r')
          | r' => parse_elements fuel r' []
          end
      | 34 :: r => '(str, r') ← parse_string r []; Some (JStr str, r')
      | 116 :: 114 :: 117 :: 101 :: r => Some (JBool true, r)
      | 102 :: 97 :: 108 :: 115 :: 101 :: r => Some (JBool false, r)
      | 110 :: 117 :: 108 :: 108 :: r => Some (JNull, r)
      | r => '(num, r') ← parse_number r; Some (JNum num, r')
      end
  end
with parse_elements (fuel : nat) (s : jsstring) (acc : list JsValue)
  : option (JsValue * jsstring) :=
  match fuel with
  | O => None
  | S fuel =>
      '(v, r) ← parse_value fuel s;
      match skip_ws r with
      | 44 :: r' => parse_elements fuel r' (v :: acc)
      | 93 :: r' => Some (JArr (rev (v :: acc)), r')
      | _ => None
      end
  end
with parse_members (fuel : nat) (s : jsstring) (acc : JsObject)
  : option (JsValue * jsstring) :=
  match fuel with
  | O => None
  | S fuel =>
      match skip_ws s with
      | 34 :: r =>
          '(key, r1) ← parse_string r [];
          match skip_ws r1 with
          | 58 :: r2 =>
              '(v, r3) ← parse_value fuel r2;
              match skip_ws r3 with
              | 44 :: r4 => parse_members fuel r4 (obj_set acc key v)
              | 125 :: r4 => Some (JObj (obj_set acc key v), r4)
              | _ => None
              end
          | _ => None
          end
      | _ => None
      end
  end.

Definition parse (text : jsstring) : option JsValue :=
  '(v, r) ← parse_value (2 * length text + 2) text;
  if decide (skip_ws r = []) then Some v else None.

Definition is_high_surrogate (c : N) : bool := (55296 <=? c) && (c <=? 56319).
Definition is_low_surrogate (c : N) : bool := (56320 <=? c) && (c <=? 57343).

Definition hex_lower (n : N) : N := if n <? 10 then 48 + n else 87 + n.
Definition hex_upper (n : N) : N := if n <? 10 then 48 + n else 55 + n.

Definition escape_unit (c : N) : jsstring :=
  [92; 117; hex_lower (c / 4096); hex_lower (c / 256 mod 16);
   hex_lower (c / 16 mod 16); hex_lower (c mod 16)].

Definition escape (c : N) : jsstring :=
  match c with
  | 34 => [92; 34]
  | 92 => [92; 92]
  | 8 => [92; 98]
  | 12 => [92; 102]
  | 10 => [92; 110]
  | 13 => [92; 114]
  | 9 => [92; 116]
  | _ => if c <? 32 then escape_unit c else [c]
  end.

Fixpoint quote_units (s : jsstring) : jsstring :=
  match s with
  | [] => []
  | c :: r =>
      if is_high_surrogate c then
        match r with
        | d :: r' =>
            if is_low_surrogate d then c :: d :: quote_units r'
            else escape_unit c ++ quote_units r
        | [] => escape_unit c
        end
      else if is_low_surrogate c then escape_unit c ++ quote_units r
      else escape c ++ quote_units r
  end.

Definition quote (s : jsstring) : jsstring := [34] ++ quote_units s ++ [34].

Fixpoint join (sep : jsstring) (parts : list jsstring) : jsstring :=
  match parts with
  | [] => []
  | [p] => p
  | p :: ps => p ++ sep ++ join sep ps
  end.

Fixpoint stringify (v : JsValue) : option jsstring :=
  match v with
  | JUndefined => None
  | JNull => Some (lit "null")
  | JBool b => Some (lit (if b then "true" else "false"))
  | JNum literal => Some literal
  | JStr s => Some (quote s)
  | JArr items =>
      Some ([91] ++ join [44] (map (λ x, default (lit "null") (stringify x))
                                 items) ++ [93])
  | JObj props =>
      let member (kv : jsstring * JsValue) : list jsstring :=
        match stringify kv.2 with
        | Some text => [quote kv.1 ++ [58] ++ text]
        | None => []
        end in
      Some ([123] ++ join [44] (flat_map member props) ++ [125])
  end.

Definition is_unreserved (c : N) : bool :=
  is_digit c || ((65 <=? c) && (c <=? 90)) || ((97 <=? c) && (c <=? 122))
  || bool_decide (c ∈ [45; 95; 46; 33; 126; 42; 39; 40; 41]).

Definition utf8 (cp : N) : list N :=
  if cp <? 128 then [cp]
  else if cp <? 2048 then [192 + cp / 64; 128 + cp mod 64]
  else if cp <? 65536 then
    [224 + cp / 4096; 128 + cp / 64 mod 64; 128 + cp mod 64]
  else [240 + cp / 262144; 128 + cp / 4096 mod 64; 128 + cp / 64 mod 64;
        128 + cp mod 64].

Definition percent (byte : N) : jsstring :=
  [37; hex_upper (byte / 16); hex_upper (byte mod 16)].

Fixpoint encode (s : jsstring) : option jsstring :=
  match s with
  | [] => Some []
  | c :: r =>
      if is_unreserved c then (c ::.) <$> encode r
      else if is_high_surrogate c then
        match r with
        | d :: r' =>
            if is_low_surrogate d then
              let cp := 65536 + (c - 55296) * 1024 + (d - 56320) in
              (flat_map percent (utf8 cp) ++.) <$> encode r'
            else None
        | [] => None
        end
      else if is_low_surrogate c then None
      else (flat_map percent (utf8 c) ++.) <$> encode r
  end.

Definition runtime : JsRuntime :=
  {| JSON_parse := parse;
     JSON_stringify := stringify;
     encodeURIComponent := encode |}.
End Ecma.

(** ** Promises, requests and the collaborators of the client *)

(** The outcome of a call that may throw, or of an awaited promise. *)
Inductive Result (A : Type) : Type :=
| Ok (a : A)
| Throw (e : Thrown).
Arguments Ok {A} a.
Arguments Throw {A} e.

(** The second argument of [fetch]; an absent [method] means [GET]. *)
Record RequestInit := {
  method : option jsstring;
  headers : gmap jsstring jsstring;
  body : option jsstring;
}.

Record Request := { url : jsstring; init : RequestInit }.

(** A response as received: status line and body text. *)
Record Response := {
  status : Z;
  statusText : jsstring;
  responseBody : jsstring;
}.

(** [IdentityApi.getIdToken(): Promise<string | undefined>]. *)
Record IdentityApi := { getIdToken : Result (option jsstring) }.

(** [DiscoveryApi.getBaseUrl(pluginId): Promise<string>]. *)
Record DiscoveryApi := { getBaseUrl : jsstring → Result jsstring }.

(** An [async] computation: it sees the requests sent so far, may send
    more, and settles with a value or a rejection. *)
Definition Async (A : Type) : Type := list Request → Result A * list Request.

Definition await {A} (p : Result A) : Async A := λ sent, (p, sent).

#[global] Instance Async_ret : MRet Async := λ A a sent, (Ok a, sent).

#[global] Instance Async_bind : MBind Async := λ A B k m sent,
  match m sent with
  | (Ok a, sent') => k a sent'
  | (Throw e, sent') => (Throw e, sent')
  end.

Definition throw {A} (e : Thrown) : Async A := await (Throw e).

(** [`${token}`] for a token that is a string or [undefined]. *)
Definition interpolate (token : option jsstring) : jsstring :=
  default (lit "undefined") token.

(** [const { id } = v]: [null] cannot be destructured; a primitive or an
    array has no property [id]. *)
Definition destructure_id (v : JsValue) : Result JsValue :=
  match v with
  | JUndefined | JNull => Throw TypeError
  | JObj props => Ok (obj_get props (lit "id"))
  | _ => Ok JUndefined
  end.

(** ** zen-observable subscriptions and the EventSource *)

(** What the consumer's observer is called with. *)
Inductive Notification : Type :=
| Next (value : JsValue)
| Error (e : Thrown)
| Complete.

Inductive SubscriptionState := Ready | Closed.

(** The connection object: the page chooses the URL and the credentials
    mode, nothing else; [close()] is the only way the page ends it. *)
Record EventSource := {
  es_url : jsstring;
  withCredentials : bool;
  closed : bool;
}.

Definition EventSource_new (url : jsstring) : EventSource :=
  {| es_url := url; withCredentials := false; closed := false |}.

Definition EventSource_close (es : EventSource) : EventSource :=
  {| es_url := es_url es; withCredentials := withCredentials es;
     closed := true |}.

(** The request the user agent sends for an [EventSource]. *)
Definition EventSource_request (es : EventSource) : Request :=
  {| url := es_url es;
     init := {| method := None;
                headers := {[ lit "Accept" := lit "text/event-stream" ]};
                body := None |} |}.

(** One subscription to the observable of [streamLogs], with the part of
    the page it can touch: the subscription's state and teardown (the value
    returned by the subscriber function), the calls its observer received
    so far (oldest first), the connection once it is opened, and the
    discovery promise while its callbacks are pending. *)
Record Stream := {
  subscription_state : SubscriptionState;
  subscription_cleanup : option (option EventSource → option EventSource);
  observed : list Notification;
  eventSource : option EventSource;
  pending : option (Result jsstring);
}.

Definition closeSubscription (st : Stream) : Stream :=
  {| subscription_state := Closed;
     subscription_cleanup := subscription_cleanup st;
     observed := observed st;
     eventSource := eventSource st;
     pending := pending st |}.

Definition cleanupSubscription (st : Stream) : Stream :=
  match subscription_cleanup st with
  | None => st
  | Some cleanup =>
      {| subscription_state := subscription_state st;
         subscription_cleanup := None;
         observed := observed st;
         eventSource := cleanup (eventSource st);
         pending := pending st |}
  end.

Definition call_observer (n : Notification) (st : Stream) : Stream :=
  {| subscription_state := subscription_state st;
     subscription_cleanup := subscription_cleanup st;
     observed := observed st ++ [n];
     eventSource := eventSource st;
     pending := pending st |}.

Definition notifySubscription (n : Notification) (st : Stream) : Stream :=
  match n with
  | Next _ => call_observer n st
  | Error _ | Complete =>
      cleanupSubscription (call_observer n (closeSubscription st))
  end.

(** A closed subscription drops every notification. *)
Definition onNotify (n : Notification) (st : Stream) : Stream :=
  match subscription_state st with
  | Closed => st
  | Ready => notifySubscription n st
  end.

Definition subscriber_next (v : JsValue) := onNotify (Next v).
Definition subscriber_error (e : Thrown) := onNotify (Error e).
Definition subscriber_complete := onNotify Complete.

(** [subscription.unsubscribe()]. *)
Definition unsubscribe (st : Stream) : Stream :=
  match subscription_state st with
  | Closed => st
  | Ready => cleanupSubscription (closeSubscription st)
  end.

(** What the user agent dispatches on the connection: a server-sent event
    with its event name and [data], or the [error] event it fires itself
    when the transport fails ([failed]: for good; otherwise it reconnects). *)
Inductive Inbound : Type :=
| Message (type : jsstring) (data : option jsstring)
| ConnectionError (failed : bool).

(** What happens to a subscription, one event-loop turn at a time. *)
Inductive Action : Type :=
| BaseUrlSettled
| Receive (e : Inbound)
| Unsubscribe.

(** ** The scaffolder client *)

Record ScaffolderClient := {
  discoveryApi : DiscoveryApi;
  identityApi : IdentityApi;
}.

Section Client.
Context `{JsRuntime}.
(** The global [fetch]: how the network answers a request. *)
Variable network : Request → Result Response.
Variable this : ScaffolderClient.

Definition fetch (url : jsstring) (init : RequestInit) : Async Response :=
  λ sent,
    let request := {| url := url; init := init |} in
    (network request, sent ++ [request]).

(** [response.text()] and [response.json()]. *)
Definition Response_text (response : Response) : Async jsstring :=
  mret (responseBody response).

Definition Response_json (response : Response) : Async JsValue :=
  match JSON_parse (responseBody response) with
  | Some v => mret v
  | None => throw SyntaxError
  end.

Definition scaffold (templateName : jsstring) (values : JsObject)
  : Async JsValue :=
  token ← await (getIdToken (identityApi this));
  baseUrl ← await (getBaseUrl (discoveryApi this) (lit "scaffolder"));
  let url := baseUrl ++ lit "/v2/tasks" in
  response ← fetch url
    {| method := Some (lit "POST");
       headers :=
         (if truthy token
          then {[ lit "Authorization" := lit "Bearer " ++ interpolate token ]}
          else ∅)
         ∪ {[ lit "Content-Type" := lit "application/json" ]};
       body := JSON_stringify
                 (JObj [(lit "templateName", JStr templateName);
                        (lit "values", JObj values)]) |};
  if decide (status response ≠ 201) then
    let status :=
      String_of_Z (status response) ++ lit " " ++ statusText response in
    body ← Response_text response;
    throw (ErrorObj (lit "Backend request failed, " ++ status ++ lit " "
                       ++ trim body))
  else
    json ← Response_json response;
    await (destructure_id json).

Definition getTask (taskId : jsstring) : Async JsValue :=
  token ← await (getIdToken (identityApi this));
  baseUrl ← await (getBaseUrl (discoveryApi this) (lit "scaffolder"));
  match encodeURIComponent taskId with
  | None => throw URIError
  | Some encoded =>
      let url := baseUrl ++ lit "/v2/tasks/" ++ encoded in
      x ← fetch url
        {| method := None;
           headers :=
             if truthy token
             then {[ lit "Authorization"
                       := lit "Bearer " ++ interpolate token ]}
             else ∅;
           body := None |};
      Response_json x
  end.

Section streamLogs.
Variable taskId : jsstring.
Variable after : option Z.

(** [params] is filled from [after] and not read again. *)
Definition params : list (jsstring * jsstring) :=
  match after with
  | Some n => [(lit "after", String_of_Z n)]
  | None => []
  end.

(** The subscriber function runs when the observable is subscribed to:
    it asks for the base URL, leaves the two callbacks pending and
    returns [undefined], so the subscription has no teardown. *)
Definition streamLogs_subscribe : Stream :=
  let params := params in
  {| subscription_state := Ready;
     subscription_cleanup := None;
     observed := [];
     eventSource := None;
     pending := Some (getBaseUrl (discoveryApi this) (lit "scaffolder")) |}.

Definition with_eventSource (es : option EventSource) (st : Stream)
  : Stream :=
  {| subscription_state := subscription_state st;
     subscription_cleanup := subscription_cleanup st;
     observed := observed st;
     eventSource := es;
     pending := pending st |}.

Definition settled (st : Stream) : Stream :=
  {| subscription_state := subscription_state st;
     subscription_cleanup := subscription_cleanup st;
     observed := observed st;
     eventSource := eventSource st;
     pending := None |}.

(** The fulfilment callback: opens the connection and registers the
    three listeners.  A [URIError] from [encodeURIComponent] is thrown
    inside the callback and reaches nobody. *)
Definition onBaseUrl (baseUrl : jsstring) (st : Stream) : Stream :=
  match encodeURIComponent taskId with
  | None => st
  | Some encoded =>
      let url := baseUrl ++ lit "/v2/tasks/" ++ encoded
                   ++ lit "/eventstream" in
      with_eventSource (Some (EventSource_new url)) st
  end.

(** The rejection callback. *)
Definition onBaseUrlError (error : Thrown) (st : Stream) : Stream :=
  subscriber_error error st.

(** The block shared by the [log] and [completion] listeners:
    [if (event.data) { try { subscriber.next(JSON.parse(event.data)) }
    catch (ex) { subscriber.error(ex) } }]. *)
Definition nextParsed (data : option jsstring) (st : Stream) : Stream :=
  match data with
  | Some text =>
      if truthy data then
        match JSON_parse text with
        | Some v => subscriber_next v st
        | None => subscriber_error SyntaxError st
        end
      else st
  | None => st
  end.

(** The listeners for [log], [completion] and [error]. *)
Definition onLog (data : option jsstring) (st : Stream) : Stream :=
  nextParsed data st.

Definition onCompletion (data : option jsstring) (st : Stream) : Stream :=
  subscriber_complete (nextParsed data st).

Definition onError (st : Stream) : Stream :=
  subscriber_error ErrorEvent st.

(** The user agent dispatches an event to the listeners registered
    under its name; a closed connection dispatches nothing. *)
Definition dispatch (e : Inbound) (st : Stream) : Stream :=
  match eventSource st with
  | None => st
  | Some es =>
      if closed es then st
      else
        match e with
        | Message type data =>
            if decide (type = lit "log") then onLog data st
            else if decide (type = lit "completion") then
              onCompletion data st
            else if decide (type = lit "error") then onError st
            else st
        | ConnectionError failed =>
            (* a connection the user agent gives up on ends in the
               state [close()] leaves it in *)
            onError
              (with_eventSource
                 (Some (if failed then EventSource_close es else es)) st)
        end
  end.

Definition step (a : Action) (st : Stream) : Stream :=
  match a with
  | BaseUrlSettled =>
      match pending st with
      | Some (Ok baseUrl) => onBaseUrl baseUrl (settled st)
      | Some (Throw error) => onBaseUrlError error (settled st)
      | None => st
      end
  | Receive e => dispatch e st
  | Unsubscribe => unsubscribe st
  end.

Definition run (actions : list Action) (st : Stream) : Stream :=
  foldl (λ st a, step a st) st actions.

(** The subscription after the given turns of the event loop. *)
Definition streamLogs (actions : list Action) : Stream :=
  run actions streamLogs_subscribe.
End streamLogs.
End Client.

(** ** The behaviour the specification describes *)

(** The entry the specification describes: the key at position
    [seed mod (number of keys)] of the set, paired with the set's value for
    that key. *)
Definition selected_entry (seed : Z) (set : JsObject) : Greeting :=
  let keys := Object_keys set in
  match keys !! Z.to_nat (seed `mod` Z.of_nat (length keys)) with
  | Some key => {| language := JStr key; greeting := obj_get set key |}
  | None => {| language := JUndefined; greeting := JUndefined |}
  end.

Section StreamSpecification.
Context `{JsRuntime}.

(** The payload an inbound event carries for the subscriber: the parsed
    [data] of a [log] or [completion] event whose data is non-empty and
    well-formed JSON. *)
Definition payload (e : Inbound) : option JsValue :=
  match e with
  | Message type (Some text) =>
      if bool_decide (type = lit "log" ∨ type = lit "completion")
         && truthy (Some text)
      then JSON_parse text
      else None
  | _ => None
  end.

(** A [log] or [completion] event with non-empty data that is not JSON. *)
Definition malformed (e : Inbound) : bool :=
  match e with
  | Message type (Some text) =>
      bool_decide (type = lit "log" ∨ type = lit "completion")
      && truthy (Some text)
      && bool_decide (JSON_parse text = None)
  | _ => false
  end.

(** The events that end the sequence, with the notification that ends
    it: an event with malformed data (the parse error), a [completion]
    event (complete), an [error] event (the event itself). *)
Definition ending (e : Inbound) : option Notification :=
  match e with
  | ConnectionError _ => Some (Error ErrorEvent)
  | Message type _ =>
      if malformed e then Some (Error SyntaxError)
      else if bool_decide (type = lit "completion") then Some Complete
      else if bool_decide (type = lit "error") then Some (Error ErrorEvent)
      else None
  end.
End StreamSpecification.

(** A connection that is open from the page's point of view, with a live
    subscription. *)
Definition listening (st : Stream) : Prop :=
  subscription_state st = Ready
  ∧ ∃ es, eventSource st = Some es ∧ closed es = false.

(** ** Notions used by the further properties *)

(** The turns something is registered for: the settling of the discovery
    promise, an unsubscription, and the events named [log], [completion]
    or [error]. *)
Definition has_listener (a : Action) : bool :=
  match a with
  | Receive (Message type _) =>
      bool_decide (type ∈ [lit "log"; lit "completion"; lit "error"])
  | _ => true
  end.

(** A client whose discovery service rejects with [reason]. *)
Definition undiscovered_client (reason : Thrown) : ScaffolderClient :=
  {| discoveryApi := {| getBaseUrl := λ _, Throw reason |};
     identityApi := {| getIdToken := Ok None |} |}.

(** ** Sample data *)

(** Small locale tables in the shape of the JSON files. *)
Definition sample_goodMorning : JsObject :=
  [(lit "English", JStr (lit "Good morning"));
   (lit "French", JStr (lit "Bonjour"));
   (lit "German", JStr (lit "Guten Morgen"))].

Definition sample_goodAfternoon : JsObject :=
  [(lit "English", JStr (lit "Good afternoon"));
   (lit "German", JStr (lit "Guten Tag"))].

Definition sample_goodEvening : JsObject :=
  [(lit "English", JStr (lit "Good evening"));
   (lit "French", JStr (lit "Bonsoir"));
   (lit "German", JStr (lit "Guten Abend"));
   (lit "Dutch", JStr (lit "Goedenavond"))].

(** A client whose collaborators answer at once: the discovery service
    maps a plugin id to a local URL, the identity provider hands out
    [token]. *)
Definition sample_client (token : option jsstring) : ScaffolderClient :=
  {| discoveryApi :=
       {| getBaseUrl := λ pluginId,
            Ok (lit "http://localhost:7000/api/" ++ pluginId) |};
     identityApi := {| getIdToken := Ok token |} |}.

(** A network that answers every request with [response]. *)
Definition reply (response : Response) : Request → Result Response :=
  λ _, Ok response.

(** JSON text written with apostrophes in place of the double quotes. *)
Definition json_text (s : string) : jsstring :=
  map (λ c, if decide (c = 39%N) then 34%N else c) (lit s).

(** Events as a backend would send them, with an empty keep-alive and an
    unnamed message in between, and a log event after the completion. *)
Definition sample_events : list Inbound :=
  [Message (lit "log") (Some (json_text "{'id':'1'}"));
   Message (lit "log") (Some []);
   Message (lit "message") (Some (lit "ping"));
   Message (lit "completion") (Some (json_text "{'id':'2'}"));
   Message (lit "log") (Some (json_text "{'id':'3'}"))].

(** * The reference runtime on examples *)

Example parse_object :
  Ecma.parse (json_text " { 'id' : 'abc', 'n' : [1, -2.5e3, true, null] } ")
  = Some (JObj [(lit "id", JStr (lit "abc"));
                (lit "n", JArr [JNum (lit "1"); JNum (lit "-2.5e3");
                                JBool true; JNull])]).
Proof. reflexivity. Qed.

Example parse_rejects :
  Ecma.parse <$> [lit "created"; lit "{"; lit ""; lit "01"; lit "1 2"]
  = [None; None; None; None; None].
Proof. reflexivity. Qed.

Example stringify_body :
  Ecma.stringify
    (JObj [(lit "templateName", JStr (lit "react-app"));
           (lit "values", JObj [(lit "name", JStr (lit "demo"));
                                (lit "owner", JUndefined)])])
  = Some (json_text "{'templateName':'react-app','values':{'name':'demo'}}").
Proof. reflexivity. Qed.

Example encode_task_id :
  Ecma.encode (lit "my task/1") = Some (lit "my%20task%2F1")
  ∧ Ecma.encode [55357%N] = None.
Proof. split; reflexivity. Qed.

Example trim_body : trim ([9; 32] ++ lit "boom  " ++ [10; 160])%N = lit "boom".
Proof. reflexivity. Qed.

(** * Properties of the greeting helper *)

Lemma obj_lookup_key (o : JsObject) (k : jsstring) :
  k ∈ Object_keys o → is_Some (obj_lookup o k).
Proof.
  induction o as [|[k' v] o IH]; simpl.
  - intros Hin. inversion Hin.
  - intros Hin. destruct (decide (k' = k)) as [->|Hne]; [eauto|].
    apply IH. apply elem_of_cons in Hin as [->|Hin]; [done|exact Hin].
Qed.

Lemma random_in_bounds (seed : Z) (array : list jsstring) :
  0 ≤ seed → array ≠ [] →
  random seed array
  = array !! Z.to_nat (seed `mod` Z.of_nat (length array))
  ∧ is_Some (random seed array).
Proof.
  intros Hseed Hne. unfold random, js_rem, array_get.
  assert (0 < Z.of_nat (length array)) as Hlen.
  { destruct array; [done|simpl; lia]. }
  destruct (decide (Z.of_nat (length array) = 0)) as [|_]; [lia|].
  rewrite Z.rem_mod_nonneg by lia.
  pose proof (Z.mod_pos_bound seed _ Hlen) as [Hlo Hhi].
  destruct (decide (0 ≤ seed `mod` Z.of_nat (length array))); [|lia].
  split; [done|]. apply lookup_lt_is_Some. lia.
Qed.

Lemma random_selected (seed : Z) (set : JsObject) :
  0 ≤ seed →
  let key := random seed (Object_keys set) in
  {| language := from_option JStr JUndefined key;
     greeting := obj_get set (to_property_key key) |}
  = selected_entry seed set.
Proof.
  intros Hseed. unfold selected_entry. simpl.
  destruct (decide (Object_keys set = [])) as [Hnil|Hne].
  - rewrite Hnil. destruct set; [|done]. reflexivity.
  - destruct (random_in_bounds seed _ Hseed Hne) as [-> [key Hkey]].
    rewrite Hkey. reflexivity.
Qed.

(** C6: before hour 23 the greeting is the selected entry of the morning
    set (hour below 12), of the afternoon set (hour from 12 up to 16), or of
    the evening set (hour from 17 up to 22), where the selected entry has
    the key at position seed mod (number of keys) as its language and the
    set's value for that key as its greeting. *)
Theorem greeting_by_hour_bucket
  (seed : Z) (goodMorning goodAfternoon goodEvening : JsObject) (h : Z) :
  0 ≤ seed → h < 23 →
  let result :=
    getTimeBasedGreeting seed goodMorning goodAfternoon goodEvening h in
  (h < 12 → result = selected_entry seed goodMorning)
  ∧ (12 ≤ h < 17 → result = selected_entry seed goodAfternoon)
  ∧ (17 ≤ h < 23 → result = selected_entry seed goodEvening).
Proof.
  intros Hseed Hh result. subst result.
  unfold getTimeBasedGreeting, timeOfDay.
  destruct (decide (h >= 23)); [lia|].
  repeat split; intros Hb;
    repeat (destruct (decide _); try lia);
    apply random_selected; assumption.
Qed.

Lemma greeting_by_hour_bucket_witness :
  getTimeBasedGreeting 123457 sample_goodMorning sample_goodAfternoon
    sample_goodEvening 14
  = {| language := JStr (lit "German"); greeting := JStr (lit "Guten Tag") |}.
Proof.
  destruct (greeting_by_hour_bucket 123457 sample_goodMorning
              sample_goodAfternoon sample_goodEvening 14) as (_ & Hnoon & _);
    [lia | lia |].
  rewrite Hnoon by lia. reflexivity.
Defined.

(** C7: from hour 23 on the greeting is the fixed pair "Seriously" /
    "Get some rest", whatever the seed and the locale tables. *)
Theorem greeting_late_night
  (seed : Z) (goodMorning goodAfternoon goodEvening : JsObject) (h : Z) :
  23 ≤ h →
  getTimeBasedGreeting seed goodMorning goodAfternoon goodEvening h
  = {| language := JStr (lit "Seriously");
       greeting := JStr (lit "Get some rest") |}.
Proof.
  intros Hh. unfold getTimeBasedGreeting.
  destruct (decide (h >= 23)); [reflexivity|lia].
Qed.

Lemma greeting_late_night_witness :
  getTimeBasedGreeting 42 sample_goodMorning sample_goodAfternoon
    sample_goodEvening 23
  = {| language := JStr (lit "Seriously");
       greeting := JStr (lit "Get some rest") |}.
Proof. apply greeting_late_night. lia. Defined.

(** C8 as stated fails: with one seed and the same tables, a call at hour
    11 and a call at hour 12 of the same run return different greetings. *)
Lemma greeting_differs_across_noon :
  getTimeBasedGreeting 123457 sample_goodMorning sample_goodAfternoon
    sample_goodEvening 11
  ≠ getTimeBasedGreeting 123457 sample_goodMorning sample_goodAfternoon
      sample_goodEvening 12.
Proof. vm_compute. discriminate. Qed.

(** C8, amended: two calls with the same seed and the same locale tables
    return the same pair whenever their hours fall in the same bucket (both
    below 12, both from 12 to 16, both from 17 to 22, or both from 23 on). *)
Theorem greeting_stable_within_bucket
  (seed : Z) (goodMorning goodAfternoon goodEvening : JsObject) (h1 h2 : Z) :
  (h1 < 12 ∧ h2 < 12) ∨ (12 ≤ h1 < 17 ∧ 12 ≤ h2 < 17)
  ∨ (17 ≤ h1 < 23 ∧ 17 ≤ h2 < 23) ∨ (23 ≤ h1 ∧ 23 ≤ h2) →
  getTimeBasedGreeting seed goodMorning goodAfternoon goodEvening h1
  = getTimeBasedGreeting seed goodMorning goodAfternoon goodEvening h2.
Proof.
  intros Hbucket. unfold getTimeBasedGreeting, timeOfDay.
  repeat (destruct (decide _); try lia); reflexivity.
Qed.

Lemma greeting_stable_within_bucket_witness :
  getTimeBasedGreeting 123457 sample_goodMorning sample_goodAfternoon
    sample_goodEvening 17
  = getTimeBasedGreeting 123457 sample_goodMorning sample_goodAfternoon
      sample_goodEvening 22.
Proof. apply greeting_stable_within_bucket. lia. Defined.

(** C9: for a non-negative seed and a non-empty selected locale set, the
    index seed % (number of keys) is a valid position of the key array, the
    key found there is a property of the set, and the function returns that
    key with the set's value for it. *)
Theorem greeting_lookup_in_bounds
  (seed : Z) (goodMorning goodAfternoon goodEvening : JsObject) (h : Z) :
  0 ≤ seed → h < 23 →
  let set := timeOfDay goodMorning goodAfternoon goodEvening h in
  let keys := Object_keys set in
  set ≠ [] →
  ∃ (index : Z) (key : jsstring) (value : JsValue),
    js_rem seed (Z.of_nat (length keys)) = Some index
    ∧ 0 ≤ index < Z.of_nat (length keys)
    ∧ keys !! Z.to_nat index = Some key
    ∧ obj_lookup set key = Some value
    ∧ getTimeBasedGreeting seed goodMorning goodAfternoon goodEvening h
      = {| language := JStr key; greeting := value |}.
Proof.
  intros Hseed Hh set keys Hne.
  assert (keys ≠ []) as Hkeys by (subst keys; destruct set; done).
  assert (0 < Z.of_nat (length keys)) as Hlen.
  { destruct keys; [done|simpl; lia]. }
  destruct (random_in_bounds seed keys Hseed Hkeys) as [Hrandom [key Hkey]].
  assert (key ∈ keys) as Hin.
  { rewrite Hrandom in Hkey. eapply list_elem_of_lookup_2, Hkey. }
  destruct (obj_lookup_key set key Hin) as [value Hvalue].
  exists (seed `mod` Z.of_nat (length keys)), key, value.
  pose proof (Z.mod_pos_bound seed _ Hlen).
  repeat split; try lia.
  - unfold js_rem. destruct (decide _); [lia|].
    by rewrite Z.rem_mod_nonneg by lia.
  - by rewrite <- Hrandom.
  - exact Hvalue.
  - unfold getTimeBasedGreeting. destruct (decide (h >= 23)); [lia|].
    fold set. fold keys. rewrite Hkey. simpl.
    unfold obj_get. by rewrite Hvalue.
Qed.

Lemma greeting_lookup_in_bounds_witness :
  ∃ (index : Z) (key : jsstring) (value : JsValue),
    js_rem 999999 (Z.of_nat (length (Object_keys sample_goodEvening)))
    = Some index
    ∧ 0 ≤ index < Z.of_nat (length (Object_keys sample_goodEvening))
    ∧ Object_keys sample_goodEvening !! Z.to_nat index = Some key
    ∧ obj_lookup sample_goodEvening key = Some value
    ∧ getTimeBasedGreeting 999999 sample_goodMorning sample_goodAfternoon
        sample_goodEvening 20
      = {| language := JStr key; greeting := value |}.
Proof.
  apply (greeting_lookup_in_bounds 999999 sample_goodMorning
           sample_goodAfternoon sample_goodEvening 20); [lia|lia|done].
Defined.

(** * Properties of the scaffolder client *)

Section ClientProperties.
Context `{JsRuntime}.
Variable network : Request → Result Response.
Variable this : ScaffolderClient.

Lemma scaffold_settles templateName values sent token baseUrl :
  getIdToken (identityApi this) = Ok token →
  getBaseUrl (discoveryApi this) (lit "scaffolder") = Ok baseUrl →
  let request :=
    {| url := baseUrl ++ lit "/v2/tasks";
       init :=
         {| method := Some (lit "POST");
            headers :=
              (if truthy token
               then {[ lit "Authorization"
                         := lit "Bearer " ++ interpolate token ]}
               else ∅)
              ∪ {[ lit "Content-Type" := lit "application/json" ]};
            body := JSON_stringify
                      (JObj [(lit "templateName", JStr templateName);
                             (lit "values", JObj values)]) |} |} in
  scaffold network this templateName values sent
  = (match network request with
     | Throw e => Throw e
     | Ok response =>
         if decide (status response ≠ 201) then
           Throw (ErrorObj
                    (lit "Backend request failed, "
                       ++ (String_of_Z (status response) ++ lit " "
                             ++ statusText response)
                       ++ lit " " ++ trim (responseBody response)))
         else
           match JSON_parse (responseBody response) with
           | Some json => destructure_id json
           | None => Throw SyntaxError
           end
     end, sent ++ [request]).
Proof.
  intros Htoken Hbase request.
  unfold scaffold, mbind, Async_bind, await, fetch.
  rewrite Htoken, Hbase. cbn. fold request.
  destruct (network request) as [response|e]; [|reflexivity].
  destruct (decide (status response ≠ 201)); [reflexivity|].
  unfold Response_json. destruct (JSON_parse _) as [json|]; reflexivity.
Qed.

(** C1, amended: for every response to the POST request of [scaffold]: if
    the status is not 201, scaffold rejects with an error whose message is
    "Backend request failed, ", the status line, a space and the trimmed
    body text, so it contains the status line and the trimmed body; if the
    status is 201 and the body parses as a JSON object, scaffold resolves
    to the value of its [id] property; if the status is 201 and the body
    does not parse as JSON, or parses as null, scaffold rejects with the
    engine's error.  Scaffold rejects if and only if the status is not 201
    or the body of the 201 response is not JSON or is null. *)
Theorem scaffold_outcome
  templateName values sent token baseUrl request response :
  getIdToken (identityApi this) = Ok token →
  getBaseUrl (discoveryApi this) (lit "scaffolder") = Ok baseUrl →
  (scaffold network this templateName values sent).2 = sent ++ [request] →
  network request = Ok response →
  let outcome := (scaffold network this templateName values sent).1 in
  let statusLine :=
    String_of_Z (status response) ++ lit " " ++ statusText response in
  let parsed := JSON_parse (responseBody response) in
  (status response ≠ 201 →
     ∃ message,
       outcome = Throw (ErrorObj message)
       ∧ message = lit "Backend request failed, " ++ statusLine ++ lit " "
                     ++ trim (responseBody response)
       ∧ contains message statusLine
       ∧ contains message (trim (responseBody response)))
  ∧ (status response = 201 →
       (∀ props, parsed = Some (JObj props) →
                 outcome = Ok (obj_get props (lit "id")))
       ∧ (parsed = None → outcome = Throw SyntaxError)
       ∧ (parsed = Some JNull → outcome = Throw TypeError))
  ∧ ((∃ e, outcome = Throw e) ↔
       status response ≠ 201 ∨ parsed = None ∨ parsed = Some JNull
       ∨ parsed = Some JUndefined).
Proof.
  intros Htoken Hbase Hsent Hreply outcome statusLine parsed.
  pose proof (scaffold_settles templateName values sent _ _ Htoken Hbase)
    as Hrun.
  cbv zeta in Hrun. rewrite Hrun in Hsent. cbn in Hsent.
  apply app_inv_head, (f_equal head), (inj Some) in Hsent.
  rename Hsent into Hrequest.
  subst outcome. rewrite Hrun, Hrequest, Hreply. cbn.
  fold statusLine. fold parsed.
  destruct (decide (status response ≠ 201)) as [Hbad|Hcreated].
  - split; [|split].
    + intros _. eexists. split; [reflexivity|]. split; [reflexivity|].
      split.
      * by exists (lit "Backend request failed, "),
          (lit " " ++ trim (responseBody response)).
      * exists (lit "Backend request failed, " ++ statusLine ++ lit " "), [].
        by rewrite app_nil_r, <- !(assoc_L (++)).
    + intros Hok. done.
    + split; [intros _; by left|]. intros _. eauto.
  - apply dec_stable in Hcreated.
    split; [done|]. split.
    + intros _. repeat split.
      * intros props ->. reflexivity.
      * intros ->. reflexivity.
      * intros ->. reflexivity.
    + destruct parsed as [[]|]; cbn; split;
        try (intros [e He]; discriminate He);
        try (intros [?|[?|[?|?]]]; done);
        eauto 6.
Qed.
End ClientProperties.

(** The example of the specification: a 201 response with body
    [{"id":"abc"}] resolves to ["abc"]. *)
Lemma scaffold_outcome_witness :
  let response :=
    {| status := 201; statusText := lit "Created";
       responseBody := json_text "{'id':'abc'}" |} in
  (scaffold (H:=Ecma.runtime) (reply response) (sample_client None)
     (lit "react-app") [] []).1
  = Ok (JStr (lit "abc")).
Proof.
  intros response.
  edestruct (scaffold_outcome (H:=Ecma.runtime) (reply response)
               (sample_client None) (lit "react-app") [] [])
    as (_ & Hcreated & _); [reflexivity..|].
  destruct (Hcreated eq_refl) as (Hid & _).
  apply (Hid [(lit "id", JStr (lit "abc"))]). reflexivity.
Defined.

(** C1 as stated fails: a 201 response whose body is not JSON makes
    [scaffold] reject. *)
Lemma scaffold_rejects_created_without_json :
  let response :=
    {| status := 201; statusText := lit "Created";
       responseBody := lit "created" |} in
  status response = 201
  ∧ (scaffold (H:=Ecma.runtime) (reply response) (sample_client None)
       (lit "react-app") [] []).1
    = Throw SyntaxError.
Proof. split; reflexivity. Qed.

Section RequestProperties.
Context `{JsRuntime}.
Variable network : Request → Result Response.
Variable this : ScaffolderClient.

Lemma getTask_settles taskId sent token baseUrl encoded :
  getIdToken (identityApi this) = Ok token →
  getBaseUrl (discoveryApi this) (lit "scaffolder") = Ok baseUrl →
  encodeURIComponent taskId = Some encoded →
  let request :=
    {| url := baseUrl ++ lit "/v2/tasks/" ++ encoded;
       init :=
         {| method := None;
            headers :=
              if truthy token
              then {[ lit "Authorization"
                        := lit "Bearer " ++ interpolate token ]}
              else ∅;
            body := None |} |} in
  getTask network this taskId sent
  = (match network request with
     | Throw e => Throw e
     | Ok x =>
         match JSON_parse (responseBody x) with
         | Some json => Ok json
         | None => Throw SyntaxError
         end
     end, sent ++ [request]).
Proof.
  intros Htoken Hbase Hencoded request.
  unfold getTask, mbind, Async_bind, await, fetch.
  rewrite Htoken, Hbase, Hencoded. cbn. fold request.
  destruct (network request) as [x|e]; [|reflexivity].
  unfold Response_json. destruct (JSON_parse _); reflexivity.
Qed.

(** X4: whenever the identity provider supplies a non-empty token,
    [scaffold] and [getTask] each send exactly one request, and it carries
    the header [Authorization: Bearer <token>]. *)
Lemma fetch_calls_carry_bearer
  templateName values taskId (token baseUrl encoded : jsstring) :
  getIdToken (identityApi this) = Ok (Some token) → token ≠ [] →
  getBaseUrl (discoveryApi this) (lit "scaffolder") = Ok baseUrl →
  encodeURIComponent taskId = Some encoded →
  (λ r, headers (init r) !! lit "Authorization")
    <$> (scaffold network this templateName values []).2
  = [Some (lit "Bearer " ++ token)]
  ∧ (λ r, headers (init r) !! lit "Authorization")
      <$> (getTask network this taskId []).2
    = [Some (lit "Bearer " ++ token)].
Proof.
  intros Htoken Hne Hbase Hencoded.
  assert (truthy (Some token) = true) as Htruthy by by destruct token.
  rewrite (scaffold_settles network this _ _ [] _ _ Htoken Hbase).
  rewrite (getTask_settles _ [] _ _ _ Htoken Hbase Hencoded).
  cbn [snd app fmap list_fmap init headers]. rewrite Htruthy.
  split; f_equal;
    rewrite ?lookup_union_l', ?lookup_singleton_eq; try done.
Qed.

(** The log stream never consults the identity provider. *)
Lemma streamLogs_ignores_identity
  (other : IdentityApi) (taskId : jsstring) (after : option Z)
  (actions : list Action) :
  streamLogs {| discoveryApi := discoveryApi this; identityApi := other |}
    taskId after actions
  = streamLogs this taskId after actions.
Proof. reflexivity. Qed.

(** The request behind an [EventSource] has no [Authorization] header. *)
Lemma EventSource_request_unauthorized (es : EventSource) :
  headers (init (EventSource_request es)) !! lit "Authorization" = None.
Proof.
  apply lookup_singleton_ne. intros Heq. vm_compute in Heq. discriminate Heq.
Qed.
End RequestProperties.

(** C4 on the code: the POST of [scaffold] and the GET of [getTask] carry
    [Authorization: Bearer secret] when the identity provider supplies the
    token "secret", and the request behind the connection of [streamLogs]
    carries no [Authorization] header, for this client and for every other
    client, task and sequence of turns. *)
Theorem streamLogs_connects_without_token :
  let authorization (r : Request) :=
    headers (init r) !! lit "Authorization" in
  let this := sample_client (Some (lit "secret")) in
  let answer :=
    reply {| status := 201; statusText := lit "Created";
             responseBody := json_text "{'id':'task-1'}" |} in
  (authorization
     <$> (scaffold (H:=Ecma.runtime) answer this (lit "react-app") [] []).2
   = [Some (lit "Bearer secret")]
   ∧ authorization
       <$> (getTask (H:=Ecma.runtime) answer this (lit "task-1") []).2
     = [Some (lit "Bearer secret")]
   ∧ authorization ∘ EventSource_request
       <$> eventSource (streamLogs (H:=Ecma.runtime) this (lit "task-1") None
                          [BaseUrlSettled])
     = Some None)
  ∧ ∀ (runtime : JsRuntime) client taskId after actions,
      from_option (authorization ∘ EventSource_request) None
        (eventSource (streamLogs client taskId after actions))
      = None.
Proof.
  intros authorization this answer. split.
  - repeat split; vm_compute; reflexivity.
  - intros runtime client taskId after actions.
    destruct (eventSource _) as [es|]; [|reflexivity].
    apply EventSource_request_unauthorized.
Qed.

(** * Properties of the log stream *)

Section StreamProperties.
Context `{JsRuntime}.
Variable this : ScaffolderClient.
Variable taskId : jsstring.
Variable after : option Z.

Local Ltac unfold_stream :=
  unfold step, dispatch, onLog, onCompletion, onError, onBaseUrl,
    onBaseUrlError, nextParsed, subscriber_next, subscriber_error,
    subscriber_complete, unsubscribe, onNotify, notifySubscription,
    cleanupSubscription, closeSubscription, call_observer,
    with_eventSource, settled in *.

Local Ltac case_stream :=
  repeat (cbn in *;
          match goal with
          | |- context [match ?x with _ => _ end] => destruct x eqn:?
          | _ => progress simplify_eq
          end).

(** The subscriber function returns no teardown and nothing installs one
    later. *)
Lemma step_no_cleanup (a : Action) (st : Stream) :
  subscription_cleanup st = None →
  subscription_cleanup (step taskId a st) = None.
Proof.
  destruct st as [state cleanup log es p]. cbn. intros ->.
  destruct a as [|[type data|failed]|]; unfold_stream; case_stream; done.
Qed.

Lemma run_no_cleanup (actions : list Action) (st : Stream) :
  subscription_cleanup st = None →
  subscription_cleanup (run taskId actions st) = None.
Proof.
  revert st. induction actions as [|a actions IH]; intros st Hst; [done|].
  apply IH, step_no_cleanup, Hst.
Qed.

Lemma streamLogs_no_cleanup (actions : list Action) :
  subscription_cleanup (streamLogs this taskId after actions) = None.
Proof. by apply run_no_cleanup. Qed.

Lemma log_is_not_completion : lit "log" ≠ lit "completion".
Proof. intros Heq. vm_compute in Heq. discriminate Heq. Qed.

Lemma log_is_not_error : lit "log" ≠ lit "error".
Proof. intros Heq. vm_compute in Heq. discriminate Heq. Qed.

Lemma completion_is_not_error : lit "completion" ≠ lit "error".
Proof. intros Heq. vm_compute in Heq. discriminate Heq. Qed.

(** One event on a live subscription: its payload, if any, is handed to
    [next], then the sequence ends if the event is an ending one. *)
Lemma dispatch_listening (e : Inbound) (st : Stream) :
  listening st →
  observed (dispatch e st)
  = observed st ++ (Next <$> option_list (payload e))
      ++ option_list (ending e)
  ∧ match ending e with
    | Some _ => subscription_state (dispatch e st) = Closed
    | None => listening (dispatch e st)
    end.
Proof.
  pose proof log_is_not_completion. pose proof log_is_not_error.
  pose proof completion_is_not_error.
  destruct st as [state cleanup log es p].
  intros [Hready (es' & Hes & Hopen)]. cbn in Hready, Hes. subst state es.
  unfold listening, dispatch. cbn [eventSource]. rewrite Hopen.
  destruct e as [type data|failed].
  - unfold ending, malformed, payload. unfold_stream.
    destruct data as [[|c text]|]; cbn [truthy andb];
      rewrite ?andb_false_r, ?andb_true_r; cbn [option_list fmap list_fmap];
      try destruct (JSON_parse (c :: text)) as [v|] eqn:Hparse;
      repeat case_bool_decide; simplify_eq; try (exfalso; tauto);
      repeat case_decide; simplify_eq; try (exfalso; tauto);
      cbn; try destruct cleanup; cbn;
      rewrite ?app_nil_r, <- ?(assoc_L (++)); eauto 6.
  - unfold ending, payload. unfold_stream. cbn.
    destruct cleanup; cbn; eauto.
Qed.

(** A closed subscription hears nothing more. *)
Lemma step_closed (a : Action) (st : Stream) :
  subscription_state st = Closed →
  subscription_state (step taskId a st) = Closed
  ∧ observed (step taskId a st) = observed st.
Proof.
  destruct st as [state cleanup log es p]. cbn. intros ->.
  destruct a as [|[type data|failed]|]; unfold_stream; case_stream; done.
Qed.

Lemma run_closed (actions : list Action) (st : Stream) :
  subscription_state st = Closed →
  subscription_state (run taskId actions st) = Closed
  ∧ observed (run taskId actions st) = observed st.
Proof.
  revert st. induction actions as [|a actions IH]; intros st Hst; [done|].
  destruct (step_closed a st Hst) as [Hclosed Hlog].
  cbn. rewrite <- Hlog. by apply IH.
Qed.

(** The whole sequence on a live subscription: payloads in arrival order
    up to and including the first ending event, then the notification
    that ends the sequence, then nothing. *)
Lemma run_listening (events : list Inbound) (st : Stream) :
  listening st →
  let final := run taskId (Receive <$> events) st in
  match list_find (λ e, is_Some (ending e)) events with
  | None =>
      listening final
      ∧ observed final = observed st ++ (Next <$> omap payload events)
  | Some (i, e) =>
      subscription_state final = Closed
      ∧ observed final
        = observed st ++ (Next <$> omap payload (take (S i) events))
            ++ option_list (ending e)
  end.
Proof.
  revert st. induction events as [|e events IH]; intros st Hst.
  { cbn. by rewrite app_nil_r. }
  destruct (dispatch_listening e st Hst) as [Hlog Hnext].
  cbn [fmap list_fmap run foldl step list_find].
  fold (run taskId (Receive <$> events) (dispatch e st)).
  destruct (decide (is_Some (ending e))) as [[n Hn]|Hgoes_on].
  - rewrite Hn in Hnext, Hlog |- *.
    destruct (run_closed (Receive <$> events) _ Hnext) as [-> ->].
    split; [done|]. rewrite Hlog. cbn [take omap list_omap].
    by destruct (payload e).
  - apply eq_None_not_Some in Hgoes_on. rewrite Hgoes_on in Hnext, Hlog.
    specialize (IH _ Hnext). cbn zeta in IH.
    destruct (list_find _ events) as [[i e']|]; cbn;
      destruct IH as [Hstate ->]; (split; [done|]);
      rewrite Hlog; cbn; rewrite app_nil_r, <- !(assoc_L (++));
      f_equal; by destruct (payload e).
Qed.

(** [next] is only ever called with the parsed, non-empty data of an
    event that was received. *)
Lemma step_next (a : Action) (st : Stream) (v : JsValue) :
  Next v ∈ observed (step taskId a st) →
  Next v ∈ observed st
  ∨ ∃ type text,
      a = Receive (Message type (Some text))
      ∧ (type = lit "log" ∨ type = lit "completion")
      ∧ text ≠ [] ∧ JSON_parse text = Some v.
Proof.
  destruct st as [state cleanup log es p].
  destruct a as [|[type data|failed]|]; unfold_stream; case_stream;
    rewrite ?elem_of_app, ?list_elem_of_singleton;
    intros Hin; try (by left);
    repeat match goal with
           | Hor : _ ∨ _ |- _ => destruct Hor
           end;
    simplify_eq; try (by left);
    match goal with
    | Hdata : match ?text with [] => false | _ :: _ => true end = true |- _ =>
        destruct text; [discriminate Hdata|]
    end;
    right; eexists _, _; (split; [reflexivity|]); (split; [tauto|done]).
Qed.

Lemma run_next (actions : list Action) (st : Stream) (v : JsValue) :
  Next v ∈ observed (run taskId actions st) →
  Next v ∈ observed st
  ∨ ∃ type text,
      Receive (Message type (Some text)) ∈ actions
      ∧ (type = lit "log" ∨ type = lit "completion")
      ∧ text ≠ [] ∧ JSON_parse text = Some v.
Proof.
  revert st. induction actions as [|a actions IH]; intros st Hin; [by left|].
  destruct (IH _ Hin) as [Hstep|(type & text & Hmem & Hrest)].
  - destruct (step_next a st v Hstep) as [?|(type & text & -> & Hrest)];
      [by left|].
    right. exists type, text. split; [apply list_elem_of_here|done].
  - right. exists type, text. split; [by apply list_elem_of_further|done].
Qed.

(** The page never closes the connection: a step leaves it closed only
    if it was closed before or the user agent has just given up on it. *)
Lemma step_closed_connection (a : Action) (st : Stream) (es : EventSource) :
  subscription_cleanup st = None →
  eventSource (step taskId a st) = Some es → closed es = true →
  a = Receive (ConnectionError true)
  ∨ ∃ es0, eventSource st = Some es0 ∧ closed es0 = true.
Proof.
  destruct st as [state cleanup log es0 p]. cbn. intros ->.
  destruct a as [|[type data|failed]|]; unfold_stream; case_stream;
    intros; simplify_eq; eauto.
Qed.

Lemma run_closed_connection
  (actions : list Action) (st : Stream) (es : EventSource) :
  subscription_cleanup st = None →
  eventSource (run taskId actions st) = Some es → closed es = true →
  Receive (ConnectionError true) ∈ actions
  ∨ ∃ es0, eventSource st = Some es0 ∧ closed es0 = true.
Proof.
  revert st. induction actions as [|a actions IH]; intros st Hclean Hes Hc.
  { right. eauto. }
  destruct (IH _ (step_no_cleanup a st Hclean) Hes Hc)
    as [Hlater|(es1 & Hes1 & Hc1)].
  - left. by apply list_elem_of_further.
  - destruct (step_closed_connection a st es1 Hclean Hes1 Hc1) as [->|?].
    + left. apply list_elem_of_here.
    + by right.
Qed.

(** Once the base URL is known the connection is opened against the task's
    event stream; the URL is built from the base URL and the task id
    alone. *)
Lemma streamLogs_opened (baseUrl encoded : jsstring) :
  getBaseUrl (discoveryApi this) (lit "scaffolder") = Ok baseUrl →
  encodeURIComponent taskId = Some encoded →
  streamLogs this taskId after [BaseUrlSettled]
  = {| subscription_state := Ready;
       subscription_cleanup := None;
       observed := [];
       eventSource :=
         Some (EventSource_new
                 (baseUrl ++ lit "/v2/tasks/" ++ encoded
                    ++ lit "/eventstream"));
       pending := None |}.
Proof.
  intros Hbase Hencoded. unfold streamLogs, streamLogs_subscribe.
  cbn. unfold onBaseUrl. by rewrite Hbase, Hencoded.
Qed.

(** C2, amended: once the connection is open, for every sequence of
    inbound events the observer receives, in arrival order, the parsed
    payload of each log or completion event with non-empty well-formed
    data, up to and including the first ending event; the sequence ends
    exactly at the first ending event, which is a completion event (the
    observer is completed, after its payload if it has one), an error
    event (the observer gets the event as error), or a log or completion
    event whose non-empty data is not JSON (the observer gets the parse
    error); nothing is delivered after that, and without an ending event
    the sequence stays live. *)
Theorem streamLogs_sequence
  (events : list Inbound) (baseUrl encoded : jsstring) :
  getBaseUrl (discoveryApi this) (lit "scaffolder") = Ok baseUrl →
  encodeURIComponent taskId = Some encoded →
  let final :=
    streamLogs this taskId after (BaseUrlSettled :: (Receive <$> events)) in
  match list_find (λ e, is_Some (ending e)) events with
  | None =>
      subscription_state final = Ready
      ∧ observed final = Next <$> omap payload events
  | Some (i, e) =>
      subscription_state final = Closed
      ∧ observed final
        = (Next <$> omap payload (take (S i) events))
            ++ option_list (ending e)
  end.
Proof.
  intros Hbase Hencoded final.
  assert (final = run taskId (Receive <$> events)
                    (streamLogs this taskId after [BaseUrlSettled]))
    as -> by reflexivity.
  rewrite (streamLogs_opened baseUrl encoded Hbase Hencoded).
  match goal with
  | |- context [run _ _ ?st] =>
      assert (listening st) as Hlistening
        by (split; [done|]; eexists; by split);
      pose proof (run_listening events st Hlistening) as Hrun
  end.
  cbn zeta in Hrun. cbn [observed app] in Hrun.
  destruct (list_find _ events) as [[i e]|].
  - exact Hrun.
  - destruct Hrun as [[Hready _] Hlog]. by split.
Qed.

(** C3, amended: the subscription of [streamLogs] has no teardown, and
    the page never closes the connection it opened: whatever happens to
    the subscription (completion, error, unsubscription), the connection
    is closed only if the user agent itself gave up on it. *)
Theorem streamLogs_never_closes (actions : list Action) (es : EventSource) :
  eventSource (streamLogs this taskId after actions) = Some es →
  subscription_cleanup (streamLogs this taskId after actions) = None
  ∧ (closed es = true → Receive (ConnectionError true) ∈ actions).
Proof.
  intros Hes. split; [apply streamLogs_no_cleanup|].
  intros Hclosed.
  destruct (run_closed_connection actions (streamLogs_subscribe this after)
              es eq_refl Hes Hclosed)
    as [?|(es0 & Hnone & _)]; [done|]. discriminate Hnone.
Qed.

(** C10: an event whose data is empty or absent hands nothing to [next]:
    as a log event it changes nothing; as a completion event on a live
    subscription it completes the sequence and adds nothing else.  Every
    value handed to [next] is the parsed, non-empty data of a log or
    completion event that was received. *)
Theorem empty_data_is_skipped (data : option jsstring) :
  truthy data = false →
  (∀ st, dispatch (Message (lit "log") data) st = st)
  ∧ (∀ st, listening st →
       observed (dispatch (Message (lit "completion") data) st)
       = observed st ++ [Complete]
       ∧ subscription_state (dispatch (Message (lit "completion") data) st)
         = Closed)
  ∧ (∀ actions v,
       Next v ∈ observed (streamLogs this taskId after actions) →
       ∃ type text,
         Receive (Message type (Some text)) ∈ actions
         ∧ (type = lit "log" ∨ type = lit "completion")
         ∧ text ≠ [] ∧ JSON_parse text = Some v).
Proof.
  intros Hempty. split; [|split].
  - intros [state cleanup log es p]. unfold_stream.
    destruct data as [[|c text]|]; [|discriminate Hempty|];
      case_stream; done.
  - intros st Hst.
    destruct (dispatch_listening (Message (lit "completion") data) st Hst)
      as [Hlog Hstate].
    assert (payload (Message (lit "completion") data) = None) as Hpayload.
    { destruct data as [[|c text]|]; [|discriminate Hempty|]; cbn;
        by rewrite ?andb_false_r. }
    assert (ending (Message (lit "completion") data) = Some Complete)
      as Hending.
    { unfold ending, malformed.
      destruct data as [[|c text]|]; [|discriminate Hempty|]; cbn;
        rewrite ?andb_false_r; cbn; by rewrite bool_decide_eq_true_2. }
    rewrite Hending in Hstate. rewrite Hlog, Hpayload, Hending. done.
  - intros actions v Hin.
    destruct (run_next actions _ v Hin) as [Hnil|?]; [|done].
    inversion Hnil.
Qed.
End StreamProperties.

(** C5 on the code: with [after = 5] the parameter is put into [params],
    and the connection is opened against the URL without a query string;
    for every client, task and sequence of turns the subscription is the
    one obtained for an undefined [after]. *)
Theorem streamLogs_url_drops_after :
  let opened (after : option Z) :=
    es_url <$> eventSource (streamLogs (H:=Ecma.runtime) (sample_client None)
                              (lit "task-1") after [BaseUrlSettled]) in
  (params (Some 5) = [(lit "after", lit "5")]
   ∧ opened (Some 5)
     = Some (lit "http://localhost:7000/api/scaffolder"
               ++ lit "/v2/tasks/task-1/eventstream")
   ∧ opened None = opened (Some 5))
  ∧ ∀ (runtime : JsRuntime) client taskId after actions,
      streamLogs client taskId after actions
      = streamLogs client taskId None actions.
Proof.
  intros opened. split.
  - repeat split; vm_compute; reflexivity.
  - intros runtime client taskId after actions. reflexivity.
Qed.

Lemma streamLogs_sequence_witness :
  let final :=
    streamLogs (H:=Ecma.runtime) (sample_client None) (lit "task-1") None
      (BaseUrlSettled :: (Receive <$> sample_events)) in
  subscription_state final = Closed
  ∧ observed final
    = [Next (JObj [(lit "id", JStr (lit "1"))]);
       Next (JObj [(lit "id", JStr (lit "2"))]); Complete].
Proof.
  exact (streamLogs_sequence (H:=Ecma.runtime) (sample_client None)
           (lit "task-1") None sample_events
           (lit "http://localhost:7000/api/scaffolder") (lit "task-1")
           eq_refl eq_refl).
Defined.

(** C2 as stated fails: a log event whose data is not JSON ends the
    sequence, though neither a completion nor an error event arrived. *)
Lemma streamLogs_ends_on_malformed_log :
  let final :=
    streamLogs (H:=Ecma.runtime) (sample_client None) (lit "task-1") None
      [BaseUrlSettled; Receive (Message (lit "log") (Some (lit "{")))] in
  subscription_state final = Closed
  ∧ observed final = [Error SyntaxError].
Proof. split; vm_compute; reflexivity. Qed.

Lemma streamLogs_never_closes_witness :
  let final :=
    streamLogs (H:=Ecma.runtime) (sample_client None) (lit "task-1") None
      [BaseUrlSettled; Receive (ConnectionError false); Unsubscribe] in
  subscription_cleanup final = None
  ∧ (closed
       (EventSource_new
          (lit "http://localhost:7000/api/scaffolder"
             ++ lit "/v2/tasks/task-1/eventstream"))
     = true →
     Receive (ConnectionError true)
     ∈ [BaseUrlSettled; Receive (ConnectionError false); Unsubscribe]).
Proof.
  apply (streamLogs_never_closes (H:=Ecma.runtime) (sample_client None)
           (lit "task-1") None).
  vm_compute. reflexivity.
Defined.

(** C3 as stated fails: after the sequence has completed, and after the
    subscriber has unsubscribed, the connection is still open. *)
Lemma streamLogs_leaves_connection_open :
  let completed :=
    streamLogs (H:=Ecma.runtime) (sample_client None) (lit "task-1") None
      [BaseUrlSettled;
       Receive (Message (lit "completion") (Some (json_text "{'id':'2'}")))] in
  let cancelled :=
    streamLogs (H:=Ecma.runtime) (sample_client None) (lit "task-1") None
      [BaseUrlSettled; Unsubscribe] in
  (subscription_state completed = Closed
   ∧ last (observed completed) = Some Complete
   ∧ closed <$> eventSource completed = Some false)
  ∧ (subscription_state cancelled = Closed
     ∧ closed <$> eventSource cancelled = Some false).
Proof. repeat split; vm_compute; reflexivity. Qed.

Lemma empty_data_is_skipped_witness :
  let this := sample_client None in
  (∀ st, dispatch (H:=Ecma.runtime) (Message (lit "log") (Some [])) st = st)
  ∧ (∀ st, listening st →
       observed (dispatch (H:=Ecma.runtime)
                   (Message (lit "completion") (Some [])) st)
       = observed st ++ [Complete]
       ∧ subscription_state
           (dispatch (H:=Ecma.runtime)
              (Message (lit "completion") (Some [])) st)
         = Closed)
  ∧ (∀ actions v,
       Next v ∈ observed (streamLogs (H:=Ecma.runtime) this (lit "task-1")
                            None actions) →
       ∃ type text,
         Receive (Message type (Some text)) ∈ actions
         ∧ (type = lit "log" ∨ type = lit "completion")
         ∧ text ≠ []
         ∧ JSON_parse (JsRuntime:=Ecma.runtime) text = Some v).
Proof.
  apply (empty_data_is_skipped (H:=Ecma.runtime) (sample_client None)
           (lit "task-1") None (Some [])).
  reflexivity.
Defined.

(** * Further properties of the two fetch calls *)

Section FetchProperties.
Context `{JsRuntime}.
Variable network : Request → Result Response.
Variable this : ScaffolderClient.

Lemma authorization_is_not_content_type :
  lit "Authorization" ≠ lit "Content-Type".
Proof. intros Heq. vm_compute in Heq. discriminate Heq. Qed.

(** What [scaffold] and [getTask] settle with once the network has
    answered the request they sent. *)
Lemma scaffold_replied
  templateName values sent token baseUrl request response :
  getIdToken (identityApi this) = Ok token →
  getBaseUrl (discoveryApi this) (lit "scaffolder") = Ok baseUrl →
  (scaffold network this templateName values sent).2 = sent ++ [request] →
  network request = Ok response →
  (scaffold network this templateName values sent).1
  = if decide (status response ≠ 201) then
      Throw (ErrorObj
               (lit "Backend request failed, "
                  ++ (String_of_Z (status response) ++ lit " "
                        ++ statusText response)
                  ++ lit " " ++ trim (responseBody response)))
    else
      match JSON_parse (responseBody response) with
      | Some json => destructure_id json
      | None => Throw SyntaxError
      end.
Proof.
  intros Htoken Hbase Hsent Hreply.
  pose proof (scaffold_settles network this templateName values sent _ _
                Htoken Hbase) as Hrun.
  cbv zeta in Hrun. rewrite Hrun in Hsent |- *. cbn in Hsent.
  apply app_inv_head, (f_equal head), (inj Some) in Hsent.
  cbn [fst]. by rewrite Hsent, Hreply.
Qed.

Lemma getTask_replied taskId sent token baseUrl encoded request response :
  getIdToken (identityApi this) = Ok token →
  getBaseUrl (discoveryApi this) (lit "scaffolder") = Ok baseUrl →
  encodeURIComponent taskId = Some encoded →
  (getTask network this taskId sent).2 = sent ++ [request] →
  network request = Ok response →
  (getTask network this taskId sent).1
  = match JSON_parse (responseBody response) with
    | Some json => Ok json
    | None => Throw SyntaxError
    end.
Proof.
  intros Htoken Hbase Hencoded Hsent Hreply.
  pose proof (getTask_settles network this taskId sent _ _ _
                Htoken Hbase Hencoded) as Hrun.
  cbv zeta in Hrun. rewrite Hrun in Hsent |- *. cbn in Hsent.
  apply app_inv_head, (f_equal head), (inj Some) in Hsent.
  cbn [fst]. by rewrite Hsent, Hreply.
Qed.

(** X1: [getTask] does not look at the status of the response: whatever
    the status, it resolves to the parsed body when the body is JSON and
    rejects with the parse error when it is not. *)
Theorem getTask_ignores_status
  taskId sent token baseUrl encoded request response :
  getIdToken (identityApi this) = Ok token →
  getBaseUrl (discoveryApi this) (lit "scaffolder") = Ok baseUrl →
  encodeURIComponent taskId = Some encoded →
  (getTask network this taskId sent).2 = sent ++ [request] →
  network request = Ok response →
  let outcome := (getTask network this taskId sent).1 in
  (∀ json, JSON_parse (responseBody response) = Some json →
           outcome = Ok json)
  ∧ (JSON_parse (responseBody response) = None →
     outcome = Throw SyntaxError)
  ∧ ((∃ e, outcome = Throw e)
     ↔ JSON_parse (responseBody response) = None).
Proof.
  intros Htoken Hbase Hencoded Hsent Hreply outcome. subst outcome.
  rewrite (getTask_replied _ _ _ _ _ _ _ Htoken Hbase Hencoded Hsent Hreply).
  destruct (JSON_parse (responseBody response)) as [json|].
  - repeat split; try done.
    + by intros ? [= <-].
    + by intros [e He].
  - repeat split; try done. eauto.
Qed.

(** X2: when the identity provider or the discovery service rejects,
    [scaffold] and [getTask] reject with the same reason and send no
    request. *)
Theorem rejected_collaborator_sends_nothing
  templateName values taskId sent (reason : Thrown) :
  getIdToken (identityApi this) = Throw reason
  ∨ ((∃ token, getIdToken (identityApi this) = Ok token)
     ∧ getBaseUrl (discoveryApi this) (lit "scaffolder") = Throw reason) →
  scaffold network this templateName values sent = (Throw reason, sent)
  ∧ getTask network this taskId sent = (Throw reason, sent).
Proof.
  intros [Htoken|[[token Htoken] Hbase]];
    unfold scaffold, getTask, mbind, Async_bind, await;
    rewrite Htoken, ?Hbase; done.
Qed.

(** X3: the POST of [scaffold] always declares a JSON body, with or
    without a token; when the identity provider supplies no token, or an
    empty one, neither request carries an [Authorization] header and the
    GET of [getTask] has no header at all. *)
Theorem headers_without_token
  templateName values taskId (token : option jsstring) baseUrl encoded :
  getIdToken (identityApi this) = Ok token →
  getBaseUrl (discoveryApi this) (lit "scaffolder") = Ok baseUrl →
  encodeURIComponent taskId = Some encoded →
  (λ r, headers (init r) !! lit "Content-Type")
    <$> (scaffold network this templateName values []).2
  = [Some (lit "application/json")]
  ∧ (truthy token = false →
     (λ r, headers (init r) !! lit "Authorization")
       <$> (scaffold network this templateName values []).2
     = [None]
     ∧ (λ r, headers (init r)) <$> (getTask network this taskId []).2
       = [∅]).
Proof.
  intros Htoken Hbase Hencoded.
  pose proof authorization_is_not_content_type as Hnames.
  rewrite (scaffold_settles network this _ _ [] _ _ Htoken Hbase).
  rewrite (getTask_settles network this _ [] _ _ _ Htoken Hbase Hencoded).
  cbn [snd app fmap list_fmap init headers]. split.
  - f_equal. destruct (truthy token).
    + rewrite lookup_union_r; [apply lookup_singleton_eq|].
      by apply lookup_singleton_ne.
    + rewrite (left_id_L ∅ (∪)). apply lookup_singleton_eq.
  - intros ->. split; [|done].
    f_equal; rewrite ?(left_id_L ∅ (∪));
      try (apply lookup_singleton_ne; congruence).
Qed.

(** X5: a 201 response is not validated beyond being JSON: when the body
    is a JSON value other than null that has no [id] property of its own
    (an object without it, an array, a string, a number, a boolean),
    [scaffold] resolves to [undefined] instead of rejecting. *)
Theorem scaffold_without_id
  templateName values sent token baseUrl request response json :
  getIdToken (identityApi this) = Ok token →
  getBaseUrl (discoveryApi this) (lit "scaffolder") = Ok baseUrl →
  (scaffold network this templateName values sent).2 = sent ++ [request] →
  network request = Ok response →
  status response = 201 →
  JSON_parse (responseBody response) = Some json →
  json ≠ JNull → json ≠ JUndefined →
  (∀ props, json = JObj props → obj_lookup props (lit "id") = None) →
  (scaffold network this templateName values sent).1 = Ok JUndefined.
Proof.
  intros Htoken Hbase Hsent Hreply Hstatus Hparsed Hnull Hundefined Hid.
  rewrite (scaffold_replied _ _ _ _ _ _ _ Htoken Hbase Hsent Hreply).
  rewrite decide_False by (intros Hne; by apply Hne).
  rewrite Hparsed. destruct json; try done. cbn.
  unfold obj_get. by rewrite (Hid _ eq_refl).
Qed.

(** X15: neither call retries or hides a transport failure: each sends
    exactly one request, and when [fetch] rejects, the call rejects with
    the same reason. *)
Theorem network_failure_propagates
  templateName values taskId sent token baseUrl encoded :
  getIdToken (identityApi this) = Ok token →
  getBaseUrl (discoveryApi this) (lit "scaffolder") = Ok baseUrl →
  encodeURIComponent taskId = Some encoded →
  ∃ post get,
    (scaffold network this templateName values sent).2 = sent ++ [post]
    ∧ (getTask network this taskId sent).2 = sent ++ [get]
    ∧ (∀ reason, network post = Throw reason →
         (scaffold network this templateName values sent).1 = Throw reason)
    ∧ (∀ reason, network get = Throw reason →
         (getTask network this taskId sent).1 = Throw reason).
Proof.
  intros Htoken Hbase Hencoded.
  rewrite (scaffold_settles network this _ _ sent _ _ Htoken Hbase).
  rewrite (getTask_settles network this _ sent _ _ _ Htoken Hbase Hencoded).
  eexists _, _. split; [reflexivity|]. split; [reflexivity|].
  split; intros reason Hfails; cbn [fst]; by rewrite Hfails.
Qed.
End FetchProperties.

(** * Further properties of the log stream *)

Section StreamInvariants.
Context `{JsRuntime}.
Variable this : ScaffolderClient.
Variable taskId : jsstring.
Variable after : option Z.

Local Ltac unfold_turn :=
  unfold step, dispatch, onLog, onCompletion, onError, onBaseUrl,
    onBaseUrlError, nextParsed, subscriber_next, subscriber_error,
    subscriber_complete, unsubscribe, onNotify, notifySubscription,
    cleanupSubscription, closeSubscription, call_observer,
    with_eventSource, settled in *.

Local Ltac case_turn :=
  repeat (cbn in *;
          match goal with
          | |- context [match ?x with _ => _ end] => destruct x eqn:?
          | _ => progress simplify_eq
          end).

Local Ltac shape_holds :=
  split; [rewrite ?app_nil_r, ?fmap_app; reflexivity|];
  split; [done|];
  first [ by left
        | right; split; [done|]; first [by left | right; by eexists] ].

Local Ltac shape values tail := exists values, tail; shape_holds.

Lemma run_app (actions more : list Action) (st : Stream) :
  run taskId (actions ++ more) st = run taskId more (run taskId actions st).
Proof. apply foldl_app. Qed.

(** A property kept by every turn of a given kind holds after any number
    of such turns. *)
Lemma run_invariant
  (P : Stream → Prop) (allowed : Action → Prop) (actions : list Action) :
  (∀ a st, allowed a → P st → P (step taskId a st)) →
  Forall allowed actions → ∀ st, P st → P (run taskId actions st).
Proof.
  intros Hstep Hall. induction Hall as [|a actions Ha _ IH]; intros st Hst.
  - exact Hst.
  - apply IH, Hstep; assumption.
Qed.


(** X7: a task id that cannot be encoded (a lone surrogate) never reaches
    the network: [getTask] rejects with the [URIError] before sending
    anything, and the subscription of [streamLogs] stays silent for ever,
    with no connection and no notification, not even an error. *)
Theorem unencodable_task_id (network : Request → Result Response) :
  encodeURIComponent taskId = None →
  (∀ token baseUrl sent,
     getIdToken (identityApi this) = Ok token →
     getBaseUrl (discoveryApi this) (lit "scaffolder") = Ok baseUrl →
     getTask network this taskId sent = (Throw URIError, sent))
  ∧ (∀ baseUrl actions,
       getBaseUrl (discoveryApi this) (lit "scaffolder") = Ok baseUrl →
       observed (streamLogs this taskId after actions) = []
       ∧ eventSource (streamLogs this taskId after actions) = None).
Proof.
  intros Hencoded. split.
  - intros token baseUrl sent Htoken Hbase.
    unfold getTask, mbind, Async_bind, await.
    by rewrite Htoken, Hbase, Hencoded.
  - intros baseUrl actions Hbase.
    set (P st := observed st = [] ∧ eventSource st = None
                 ∧ subscription_cleanup st = None
                 ∧ (pending st = None ∨ pending st = Some (Ok baseUrl))).
    assert (P (streamLogs this taskId after actions)) as (? & ? & _); [|done].
    apply (run_invariant P (λ _, True)).
    + intros a [state cleanup log es p] _ (? & ? & ? & Hpending).
      destruct a as [|[type data|failed]|]; unfold P; unfold_turn;
        rewrite ?Hencoded; destruct Hpending; case_turn; auto.
    + by apply Forall_forall.
    + unfold P, streamLogs_subscribe. cbn. rewrite Hbase. auto.
Qed.

(** X8: once the subscriber has unsubscribed, its observer is never called
    again: what it has received when it unsubscribes is all it ever
    receives. *)
Theorem unsubscribe_silences (before later : list Action) :
  observed (streamLogs this taskId after (before ++ Unsubscribe :: later))
  = observed (streamLogs this taskId after before).
Proof.
  unfold streamLogs. rewrite run_app.
  set (st := run taskId before _).
  change (run taskId (Unsubscribe :: later) st)
    with (run taskId later (unsubscribe st)).
  assert (subscription_state (unsubscribe st) = Closed
          ∧ observed (unsubscribe st) = observed st) as [Hclosed <-].
  { destruct st as [[] [cleanup|] log es p]; done. }
  by apply run_closed.
Qed.

(** X9: the observer is called as the Observable contract demands: any
    number of [next] calls, then at most one [error] or [complete], and
    that only on a subscription that is closed from then on. *)
Theorem observer_contract (actions : list Action) :
  let final := streamLogs this taskId after actions in
  ∃ values tail,
    observed final = (Next <$> values) ++ tail
    ∧ (tail = []
       ∨ subscription_state final = Closed
         ∧ (tail = [Complete] ∨ ∃ e, tail = [Error e])).
Proof.
  set (P st := ∃ values tail,
         observed st = (Next <$> values) ++ tail
         ∧ (subscription_state st = Ready → tail = [])
         ∧ (tail = []
            ∨ subscription_state st = Closed
              ∧ (tail = [Complete] ∨ ∃ e, tail = [Error e]))).
  assert (P (streamLogs this taskId after actions))
    as (values & tail & ? & _ & ?); [|by exists values, tail].
  apply (run_invariant P (λ _, True)).
  - intros a st _ (values & tail & Hlog & Hready & Htail).
    destruct (subscription_state st) eqn:Hstate.
    + rewrite (Hready eq_refl), app_nil_r in Hlog.
      destruct st as [state cleanup log es p]. cbn in Hstate, Hlog.
      subst state log. clear Hready Htail.
      destruct a as [|[type data|failed]|]; unfold P; unfold_turn; case_turn;
        first
          [ shape values (@nil Notification)
          | shape values [Complete]
          | eexists values, [Error _]; shape_holds
          | eexists (values ++ [_]), []; shape_holds
          | eexists (values ++ [_]), [Complete]; shape_holds ].
    + destruct (step_closed taskId a st Hstate) as [Hclosed Hsame].
      exists values, tail. rewrite Hsame, Hclosed. split; [done|].
      split; [done|]. destruct Htail as [?|[_ ?]]; auto.
  - by apply Forall_forall.
  - exists [], []. cbn. auto.
Qed.

(** X10: whatever happens to the subscription, a connection it holds was
    opened against [{baseUrl}/v2/tasks/{encoded task id}/eventstream], for
    the base URL the discovery service resolved to, and without the
    credentials mode. *)
Theorem connection_target (actions : list Action) (es : EventSource) :
  eventSource (streamLogs this taskId after actions) = Some es →
  ∃ baseUrl encoded,
    getBaseUrl (discoveryApi this) (lit "scaffolder") = Ok baseUrl
    ∧ encodeURIComponent taskId = Some encoded
    ∧ es_url es
      = baseUrl ++ lit "/v2/tasks/" ++ encoded ++ lit "/eventstream"
    ∧ withCredentials es = false.
Proof.
  set (good es := ∃ baseUrl encoded,
         getBaseUrl (discoveryApi this) (lit "scaffolder") = Ok baseUrl
         ∧ encodeURIComponent taskId = Some encoded
         ∧ es_url es
           = baseUrl ++ lit "/v2/tasks/" ++ encoded ++ lit "/eventstream"
         ∧ withCredentials es = false).
  set (P st := subscription_cleanup st = None
               ∧ (pending st = None
                  ∨ pending st
                    = Some (getBaseUrl (discoveryApi this) (lit "scaffolder")))
               ∧ ∀ es, eventSource st = Some es → good es).
  intros Hes.
  assert (P (streamLogs this taskId after actions)) as (_ & _ & Hgood);
    [|by apply Hgood].
  apply (run_invariant P (λ _, True)).
  - intros a [state cleanup log es0 p] _ (Hcleanup & Hpending & Hgood).
    cbn in Hcleanup, Hpending, Hgood. subst cleanup.
    destruct a as [|[type data|failed]|]; unfold P; unfold_turn;
      (split; [by case_turn|]); (split; [destruct Hpending; case_turn; auto|]);
      intros es1; case_turn; intros; simplify_eq; eauto;
      try (by destruct Hpending);
      try (destruct (Hgood _ eq_refl) as (b & c & ? & ? & ? & ?);
           by exists b, c).
    destruct Hpending as [|Hpending]; [done|]. simplify_eq.
    eexists _, _. eauto.
  - by apply Forall_forall.
  - unfold P, streamLogs_subscribe. cbn. split; [done|]. split; [auto|done].
Qed.

(** An event nobody listens for changes nothing. *)
Lemma step_without_listener (a : Action) (st : Stream) :
  has_listener a = false → step taskId a st = st.
Proof.
  destruct a as [|[type data|failed]|]; try done. cbn.
  intros Hnone%bool_decide_eq_false.
  rewrite !elem_of_cons in Hnone.
  unfold dispatch. destruct (eventSource st) as [es|]; [|done].
  destruct (closed es); [done|].
  repeat (destruct (decide _) as [->|?]; [exfalso; apply Hnone; auto|]).
  done.
Qed.

(** X11: server-sent events under any other name than [log], [completion]
    and [error] (unnamed messages, keep-alives) have no effect at all: the
    subscription ends up as if they had never been dispatched. *)
Theorem events_without_listener_are_dropped (actions : list Action) :
  streamLogs this taskId after actions
  = streamLogs this taskId after (filter (λ a, has_listener a) actions).
Proof.
  unfold streamLogs. generalize (streamLogs_subscribe this after).
  induction actions as [|a actions IH]; intros st; [done|].
  rewrite filter_cons. destruct (decide (has_listener a)) as [Hyes|Hno].
  - cbn. apply IH.
  - apply Is_true_false_1 in Hno. cbn.
    rewrite (step_without_listener a st Hno). apply IH.
Qed.

(** X12: nothing reaches the observer before the discovery promise has
    settled, and the connection is opened when it settles whatever
    happened before, also when the subscriber has unsubscribed in the
    meantime. *)
Theorem connection_opened_regardless
  (before : list Action) (baseUrl encoded : jsstring) :
  getBaseUrl (discoveryApi this) (lit "scaffolder") = Ok baseUrl →
  encodeURIComponent taskId = Some encoded →
  BaseUrlSettled ∉ before →
  observed (streamLogs this taskId after before) = []
  ∧ eventSource (streamLogs this taskId after before) = None
  ∧ eventSource (streamLogs this taskId after (before ++ [BaseUrlSettled]))
    = Some (EventSource_new
              (baseUrl ++ lit "/v2/tasks/" ++ encoded ++ lit "/eventstream")).
Proof.
  intros Hbase Hencoded Hnot.
  set (P st := observed st = [] ∧ eventSource st = None
               ∧ subscription_cleanup st = None
               ∧ pending st = Some (Ok baseUrl)).
  assert (P (streamLogs this taskId after before)) as (Hlog & Hes & Hc & Hp).
  { apply (run_invariant P (λ a, a ≠ BaseUrlSettled)).
    - intros a [state cleanup log es p] Ha (? & ? & ? & ?).
      destruct a as [|[type data|failed]|]; [done|..]; unfold P; unfold_turn;
        case_turn; done.
    - apply Forall_forall. intros a Hin ->. by apply Hnot.
    - unfold P, streamLogs_subscribe. cbn. by rewrite Hbase. }
  split; [done|]. split; [done|].
  unfold streamLogs in *. rewrite run_app. cbn.
  rewrite Hp. unfold onBaseUrl. by rewrite Hencoded.
Qed.
End StreamInvariants.

(** * Further properties of the greeting helper *)

(** X13: when the locale table of the hour is empty, the greeting is the
    pair of two [undefined] values, whatever the seed. *)
Theorem greeting_of_empty_table
  (seed : Z) (goodMorning goodAfternoon goodEvening : JsObject) (h : Z) :
  h < 23 →
  timeOfDay goodMorning goodAfternoon goodEvening h = [] →
  getTimeBasedGreeting seed goodMorning goodAfternoon goodEvening h
  = {| language := JUndefined; greeting := JUndefined |}.
Proof.
  intros Hh Hempty. unfold getTimeBasedGreeting.
  destruct (decide (h >= 23)); [lia|]. by rewrite Hempty.
Qed.

(** X14: the seed matters only modulo the number of keys of the table of
    the hour: adding a multiple of that number to a non-negative seed gives
    the same greeting. *)
Theorem greeting_seed_modulo
  (seed k : Z) (goodMorning goodAfternoon goodEvening : JsObject) (h : Z) :
  0 ≤ seed → 0 ≤ k →
  let keys := Object_keys (timeOfDay goodMorning goodAfternoon goodEvening h) in
  getTimeBasedGreeting (seed + k * Z.of_nat (length keys)) goodMorning
    goodAfternoon goodEvening h
  = getTimeBasedGreeting seed goodMorning goodAfternoon goodEvening h.
Proof.
  intros Hseed Hk keys. unfold getTimeBasedGreeting.
  destruct (decide (h >= 23)); [reflexivity|]. fold keys.
  assert (random (seed + k * Z.of_nat (length keys)) keys = random seed keys)
    as ->; [|reflexivity].
  unfold random, js_rem.
  destruct (decide (Z.of_nat (length keys) = 0)); [done|].
  rewrite !Z.rem_mod_nonneg by nia. by rewrite Z_mod_plus_full.
Qed.

(** * The further properties at concrete inputs *)

Lemma getTask_ignores_status_witness :
  let response :=
    {| status := 404; statusText := lit "Not Found";
       responseBody := json_text "{'error':'no such task'}" |} in
  (getTask (H:=Ecma.runtime) (reply response) (sample_client None)
     (lit "task-1") []).1
  = Ok (JObj [(lit "error", JStr (lit "no such task"))]).
Proof.
  intros response.
  edestruct (getTask_ignores_status (H:=Ecma.runtime) (reply response)
               (sample_client None) (lit "task-1") [])
    as (Hresolves & _); [reflexivity..|].
  apply Hresolves. reflexivity.
Defined.

Lemma rejected_collaborator_sends_nothing_witness :
  let this := undiscovered_client (Rejection (JStr (lit "offline"))) in
  let answer :=
    reply {| status := 201; statusText := lit "Created";
             responseBody := json_text "{'id':'task-1'}" |} in
  scaffold (H:=Ecma.runtime) answer this (lit "react-app") [] []
  = (Throw (Rejection (JStr (lit "offline"))), [])
  ∧ getTask (H:=Ecma.runtime) answer this (lit "task-1") []
    = (Throw (Rejection (JStr (lit "offline"))), []).
Proof.
  intros this answer.
  apply (rejected_collaborator_sends_nothing (H:=Ecma.runtime) answer this).
  right. split; [by exists None|reflexivity].
Defined.

Lemma headers_without_token_witness :
  let answer :=
    reply {| status := 201; statusText := lit "Created";
             responseBody := json_text "{'id':'task-1'}" |} in
  (λ r, headers (init r) !! lit "Content-Type")
    <$> (scaffold (H:=Ecma.runtime) answer (sample_client (Some []))
           (lit "react-app") [] []).2
  = [Some (lit "application/json")]
  ∧ (truthy (Some []) = false →
     (λ r, headers (init r) !! lit "Authorization")
       <$> (scaffold (H:=Ecma.runtime) answer (sample_client (Some []))
              (lit "react-app") [] []).2
     = [None]
     ∧ (λ r, headers (init r))
         <$> (getTask (H:=Ecma.runtime) answer (sample_client (Some []))
                (lit "task-1") []).2
       = [∅]).
Proof.
  intros answer.
  apply (headers_without_token (H:=Ecma.runtime) answer
           (sample_client (Some [])) (lit "react-app") [] (lit "task-1")
           (Some []) (lit "http://localhost:7000/api/scaffolder")
           (lit "task-1"));
    reflexivity.
Defined.

Lemma fetch_calls_carry_bearer_witness :
  let answer :=
    reply {| status := 201; statusText := lit "Created";
             responseBody := json_text "{'id':'task-1'}" |} in
  let this := sample_client (Some (lit "secret")) in
  (λ r, headers (init r) !! lit "Authorization")
    <$> (scaffold (H:=Ecma.runtime) answer this (lit "react-app") [] []).2
  = [Some (lit "Bearer " ++ lit "secret")]
  ∧ (λ r, headers (init r) !! lit "Authorization")
      <$> (getTask (H:=Ecma.runtime) answer this (lit "task 1") []).2
    = [Some (lit "Bearer " ++ lit "secret")].
Proof.
  intros answer this.
  apply (fetch_calls_carry_bearer (H:=Ecma.runtime) answer this
           (lit "react-app") [] (lit "task 1") (lit "secret")
           (lit "http://localhost:7000/api/scaffolder") (lit "task%201"));
    done.
Defined.

Lemma scaffold_without_id_witness :
  let response :=
    {| status := 201; statusText := lit "Created";
       responseBody := json_text "{'taskId':'abc'}" |} in
  (scaffold (H:=Ecma.runtime) (reply response) (sample_client None)
     (lit "react-app") [] []).1
  = Ok JUndefined.
Proof.
  intros response.
  eapply (scaffold_without_id (H:=Ecma.runtime) (reply response)
            (sample_client None) (lit "react-app") [] []);
    try reflexivity; try done.
  intros props [= <-]. reflexivity.
Defined.


Lemma unencodable_task_id_witness :
  let this := sample_client None in
  let answer :=
    reply {| status := 200; statusText := lit "OK";
             responseBody := json_text "{'id':'task-1'}" |} in
  (∀ token baseUrl sent,
     getIdToken (identityApi this) = Ok token →
     getBaseUrl (discoveryApi this) (lit "scaffolder") = Ok baseUrl →
     getTask (H:=Ecma.runtime) answer this [55357%N] sent
     = (Throw URIError, sent))
  ∧ (∀ baseUrl actions,
       getBaseUrl (discoveryApi this) (lit "scaffolder") = Ok baseUrl →
       observed (streamLogs (H:=Ecma.runtime) this [55357%N] None actions)
       = []
       ∧ eventSource (streamLogs (H:=Ecma.runtime) this [55357%N] None
                        actions)
         = None).
Proof.
  intros this answer.
  apply (unencodable_task_id (H:=Ecma.runtime) this [55357%N] None answer).
  reflexivity.
Defined.

Lemma connection_target_witness :
  ∃ baseUrl encoded,
    getBaseUrl (discoveryApi (sample_client None)) (lit "scaffolder")
    = Ok baseUrl
    ∧ Ecma.encode (lit "task 1") = Some encoded
    ∧ lit "http://localhost:7000/api/scaffolder"
        ++ lit "/v2/tasks/task%201/eventstream"
      = baseUrl ++ lit "/v2/tasks/" ++ encoded ++ lit "/eventstream"
    ∧ false = false.
Proof.
  apply (connection_target (H:=Ecma.runtime) (sample_client None)
           (lit "task 1") (Some 5)
           (BaseUrlSettled :: (Receive <$> sample_events) ++ [Unsubscribe])
           (EventSource_new
              (lit "http://localhost:7000/api/scaffolder"
                 ++ lit "/v2/tasks/task%201/eventstream"))).
  vm_compute. reflexivity.
Defined.

Lemma connection_opened_regardless_witness :
  let this := sample_client None in
  observed (streamLogs (H:=Ecma.runtime) this (lit "task-1") None
              [Unsubscribe])
  = []
  ∧ eventSource (streamLogs (H:=Ecma.runtime) this (lit "task-1") None
                   [Unsubscribe])
    = None
  ∧ eventSource (streamLogs (H:=Ecma.runtime) this (lit "task-1") None
                   ([Unsubscribe] ++ [BaseUrlSettled]))
    = Some (EventSource_new
              (lit "http://localhost:7000/api/scaffolder" ++ lit "/v2/tasks/"
                 ++ lit "task-1" ++ lit "/eventstream")).
Proof.
  intros this.
  apply (connection_opened_regardless (H:=Ecma.runtime) this (lit "task-1")
           None [Unsubscribe]); [reflexivity|reflexivity|].
  by rewrite list_elem_of_singleton.
Defined.

Lemma greeting_of_empty_table_witness :
  getTimeBasedGreeting 123457 sample_goodMorning [] sample_goodEvening 15
  = {| language := JUndefined; greeting := JUndefined |}.
Proof. apply greeting_of_empty_table; [lia|reflexivity]. Defined.

Lemma greeting_seed_modulo_witness :
  getTimeBasedGreeting
    (2 + 5 * Z.of_nat
               (length (Object_keys
                          (timeOfDay sample_goodMorning sample_goodAfternoon
                             sample_goodEvening 9))))
    sample_goodMorning sample_goodAfternoon sample_goodEvening 9
  = getTimeBasedGreeting 2 sample_goodMorning sample_goodAfternoon
      sample_goodEvening 9.
Proof. apply greeting_seed_modulo; lia. Defined.

Lemma network_failure_propagates_witness :
  let offline : Request → Result Response :=
    λ _, Throw (Rejection (JStr (lit "Failed to fetch"))) in
  let this := sample_client None in
  ∃ post get,
    (scaffold (H:=Ecma.runtime) offline this (lit "react-app") [] []).2
    = [] ++ [post]
    ∧ (getTask (H:=Ecma.runtime) offline this (lit "task-1") []).2
      = [] ++ [get]
    ∧ (∀ reason, offline post = Throw reason →
         (scaffold (H:=Ecma.runtime) offline this (lit "react-app") [] []).1
         = Throw reason)
    ∧ (∀ reason, offline get = Throw reason →
         (getTask (H:=Ecma.runtime) offline this (lit "task-1") []).1
         = Throw reason).
Proof.
  intros offline this.
  apply (network_failure_propagates (H:=Ecma.runtime) offline this
           (lit "react-app") [] (lit "task-1") [] None
           (lit "http://localhost:7000/api/scaffolder") (lit "task-1"));
    reflexivity.
Defined.
